(** * PharmExtract: segment assembly, rendering and result cache

    A shallow embedding of [structure_report.py] (class
    [RadiologyReportStructurer]) and [cache_manager.py] (class
    [CacheManager]), with the properties of the segment builder, the
    organizer, the text renderer and the cache store.

    Conventions of the embedding.
    - A Python [str] is a Rocq [string] read as a sequence of code points:
      the character numbered [n] is the code point [n], from 0 to 255. On
      these the whitespace class and the lower-case mapping are Python's;
      the upper case of a string can hold code points beyond 255, and is a
      list of code points. Text with code points beyond 255 is outside the
      embedding.
    - A value that is [X | None] in the source is an [option].
    - A [dict] is a [gmap]; an [OrderedDict], whose iteration order the
      renderer depends on, is an association list in insertion order.
    - A call that can raise is a computation in the [outcome] monad. *)

From Stdlib Require Import ZArith Ascii String List Permutation.
From stdpp Require Import base option list gmap strings.

Open Scope string_scope.
Open Scope list_scope.

(** ** Python strings *)

Module PyStr.

(** [str.isspace] on one character, which is also what [str.strip]
    removes: TAB, LF, VT, FF, CR, the four separators FS GS RS US, the
    blank, and beyond code point 127 the next-line control U+0085 and the
    no-break space U+00A0. *)
Definition is_space (a : ascii) : bool :=
  let n := nat_of_ascii a in
  (Nat.leb 9 n && Nat.leb n 13) || (Nat.leb 28 n && Nat.leb n 32)
  || Nat.eqb n 133 || Nat.eqb n 160.

(** [str.lower] on one character: the letters A to Z, and the capital
    letters U+00C0 to U+00DE without the multiplication sign U+00D7, move up
    by 32; every other code point below 256 is its own lower case. *)
Definition lower_char (a : ascii) : ascii :=
  let n := nat_of_ascii a in
  if (Nat.leb 65 n && Nat.leb n 90)
     || (Nat.leb 192 n && Nat.leb n 222 && negb (Nat.eqb n 215))
  then ascii_of_nat (n + 32) else a.

(** [str.upper] on one character, as code points: the letters a to z, and
    the small letters U+00E0 to U+00FE without the division sign U+00F7,
    move down by 32; the sharp s U+00DF becomes SS; the micro sign U+00B5
    and the y with diaeresis U+00FF have their capitals at U+039C and
    U+0178; every other code point below 256 is its own upper case. *)
Definition upper_char (a : ascii) : list N :=
  let n := N_of_ascii a in
  if (N.leb 97 n && N.leb n 122)
     || (N.leb 224 n && N.leb n 254 && negb (N.eqb n 247))
  then [(n - 32)%N]
  else if N.eqb n 223 then [83%N; 83%N]
  else if N.eqb n 181 then [924%N]
  else if N.eqb n 255 then [376%N]
  else [n].

Fixpoint map_chars (f : ascii -> ascii) (s : string) : string :=
  match s with
  | EmptyString => EmptyString
  | String a r => String (f a) (map_chars f r)
  end.

(** [s.lower()]. *)
Definition lower : string -> string := map_chars lower_char.

(** The code points of a string. *)
Fixpoint code_points (s : string) : list N :=
  match s with
  | EmptyString => []
  | String a r => N_of_ascii a :: code_points r
  end.

(** [s.upper()], as code points. *)
Fixpoint upper (s : string) : list N :=
  match s with
  | EmptyString => []
  | String a r => upper_char a ++ upper r
  end.

(** [u.startswith(p)] on code points. *)
Fixpoint points_startswith (u p : list N) : bool :=
  match p, u with
  | [], _ => true
  | b :: p', a :: u' => if N.eqb a b then points_startswith u' p' else false
  | _ :: _, [] => false
  end.

(** [s.upper().startswith(p)]. *)
Definition upper_startswith (s p : string) : bool :=
  points_startswith (upper s) (code_points p).

(** [s.lstrip()]. *)
Fixpoint lstrip (s : string) : string :=
  match s with
  | EmptyString => EmptyString
  | String a r => if is_space a then lstrip r else s
  end.

(** [s.rstrip()]: a character is dropped when it is white and nothing
    survives to its right. *)
Fixpoint rstrip (s : string) : string :=
  match s with
  | EmptyString => EmptyString
  | String a r =>
      match rstrip r with
      | EmptyString => if is_space a then EmptyString else String a EmptyString
      | r' => String a r'
      end
  end.

(** [s.strip()]. *)
Definition strip (s : string) : string := rstrip (lstrip s).

(** [s.startswith(p)]. *)
Fixpoint startswith (s p : string) {struct p} : bool :=
  match p, s with
  | EmptyString, _ => true
  | String b p', String a s' => if Ascii.eqb a b then startswith s' p' else false
  | String _ _, EmptyString => false
  end.

(** The slice [s[n:]]. *)
Fixpoint drop (n : nat) (s : string) : string :=
  match n, s with
  | O, _ => s
  | S n', String _ r => drop n' r
  | S _, EmptyString => EmptyString
  end.

(** [sep.join(l)]. *)
Fixpoint join (sep : string) (l : list string) : string :=
  match l with
  | [] => EmptyString
  | [x] => x
  | x :: r => x +:+ sep +:+ join sep r
  end.

(** Truth value of a string: [bool(s)]. *)
Definition truthy (s : string) : bool :=
  match s with EmptyString => false | _ => true end.

Definition eqb (s t : string) : bool := bool_decide (s = t).

(** Every character is white; the empty string included. *)
Fixpoint all_space (s : string) : bool :=
  match s with
  | EmptyString => true
  | String a r => is_space a && all_space r
  end.

End PyStr.

(** ** Exceptions *)

Inductive exn : Type :=
| ValueError (msg : string)
| TypeError (msg : string)
| AttributeError (msg : string)
| OtherException (msg : string).

Inductive outcome (A : Type) : Type :=
| Returned (a : A)
| Raised (e : exn).
Arguments Returned {A} a.
Arguments Raised {A} e.

#[global] Instance outcome_ret : MRet outcome := fun A a => Returned a.

#[global] Instance outcome_bind : MBind outcome := fun A B k m =>
  match m with
  | Returned a => k a
  | Raised e => Raised e
  end.

(** [try: m  except Exception: h]. *)
Definition try_except {A} (m : outcome A) (h : exn -> A) : A :=
  match m with
  | Returned a => a
  | Raised e => h e
  end.

(** [str(e)] for an exception. *)
Definition exn_str (e : exn) : string :=
  match e with
  | ValueError m | TypeError m | AttributeError m | OtherException m => m
  end.

(** ** Values found in a character interval

    The interval resolver receives arbitrary objects as endpoints. It
    observes three things of an endpoint: whether it is [None], whether it
    exposes [start] / [stop], and what [int()] makes of it. *)

Inductive PyObj : Type :=
| PyNone
| PyInt (z : Z)
    (** an [int] *)
| PySlice (start stop : PyObj)
    (** a slice or range-like object: it has [start] and [stop], and
        [int()] of it raises [TypeError] *)
| PyConv (r : option Z)
    (** any other object, without [start] and [stop]: [r] is the value of
        [int()] on it ([Some] for a numeric string, a float, a bool), or
        [None] when [int()] raises *).

(** [hasattr(o, "start")] with [o.start], and the same for [stop]. *)
Definition attr_start (o : PyObj) : option PyObj :=
  match o with PySlice s _ => Some s | _ => None end.

Definition attr_stop (o : PyObj) : option PyObj :=
  match o with PySlice _ e => Some e | _ => None end.

(** [int(o)]. *)
Definition py_int (o : PyObj) : outcome Z :=
  match o with
  | PyInt z => Returned z
  | PyConv (Some z) => Returned z
  | PyConv None => Raised (ValueError "invalid literal for int()")
  | PySlice _ _ => Raised (TypeError "int() argument must be a string or a number")
  | PyNone => Raised (TypeError "int() argument must be a string or a number")
  end.

Definition is_none (o : PyObj) : bool :=
  match o with PyNone => true | _ => false end.

(** ** Data model of [structure_report.py] *)

Definition FINDINGS_HEADER := "FINDINGS:".
Definition IMPRESSION_HEADER := "IMPRESSION:".
Definition EXAMINATION_HEADER := "EXAMINATION:".
Definition SECTION_ATTRIBUTE_KEY := "section".
Definition EXAM_PREFIXES := ["EXAMINATION:"; "EXAM:"; "STUDY:"].
Definition EXAMINATION_LABEL := "examination".
Definition PREFIX_LABEL := "prefix".

Inductive ReportSectionType : Type := PREFIX | BODY | SUFFIX.

#[global] Instance ReportSectionType_eq_dec : EqDecision ReportSectionType.
Proof. solve_decision. Defined.

(** The members in definition order, as [for t in ReportSectionType]. *)
Definition ReportSectionType_members : list ReportSectionType :=
  [PREFIX; BODY; SUFFIX].

Definition value (t : ReportSectionType) : string :=
  match t with
  | PREFIX => "findings_prefix"
  | BODY => "findings_body"
  | SUFFIX => "findings_suffix"
  end.

Definition name (t : ReportSectionType) : string :=
  match t with
  | PREFIX => "PREFIX"
  | BODY => "BODY"
  | SUFFIX => "SUFFIX"
  end.

Definition display_name (t : ReportSectionType) : string :=
  PyStr.lower (name t).

Record FrontendIntervalDict : Type := mkInterval {
  startPos : Z;
  endPos : Z
}.

#[global] Instance FrontendIntervalDict_eq_dec : EqDecision FrontendIntervalDict.
Proof. solve_decision. Defined.

Record Segment : Type := mkSegment {
  type : ReportSectionType;
  label : option string;
  content : string;
  intervals : list FrontendIntervalDict;
  significance : option string
}.

#[global] Instance Segment_eq_dec : EqDecision Segment.
Proof. solve_decision. Defined.

(** [langextract.data.CharInterval], or the dict that may stand for it. An
    attribute the object lacks reads as [PyNone] through
    [getattr(_, _, None)], as a missing key does through [dict.get]. *)
Inductive CharInterval : Type :=
| CharIntervalObject (start_pos end_pos : PyObj)
| CharIntervalDict (d : gmap string PyObj).

Record Extraction : Type := mkExtraction {
  extraction_text : string;
  extraction_class : string;
  attributes : option (gmap string string);
  char_interval : option CharInterval
}.

Record AnnotatedDocument : Type := mkDocument {
  extractions : list Extraction
}.

(** ** Section mapper, interval resolver and segment builder *)

(** [dict.get(key)] on a dict of endpoint objects: [None] when missing. *)
Definition dict_get (d : gmap string PyObj) (key : string) : PyObj :=
  default PyNone (d !! key).

(** The literal [pharma_map] of [_map_section]. *)
Definition pharma_map : gmap string ReportSectionType :=
  <["document_header" := PREFIX]>
  (<["methodology_body" := BODY]>
  (<["results_body" := BODY]>
  (<["conclusions_suffix" := SUFFIX]> ∅))).

Definition _map_section (extraction_class : string) : option ReportSectionType :=
  let extraction_class := PyStr.strip (PyStr.lower extraction_class) in
  match pharma_map !! extraction_class with
  | Some t => Some t
  | None =>
      List.find (fun section_type => PyStr.eqb (value section_type) extraction_class)
                ReportSectionType_members
  end.

(** [attributes and isinstance(attributes, dict)]: a dict that is neither
    [None] nor empty. *)
Definition usable_attributes (attributes : option (gmap string string))
  : option (gmap string string) :=
  match attributes with
  | Some d => if decide (d = ∅) then None else Some d
  | None => None
  end.

Definition _determine_section_label
    (attributes : option (gmap string string)) (section_type : ReportSectionType)
  : string :=
  match usable_attributes attributes with
  | Some d =>
      match d !! SECTION_ATTRIBUTE_KEY with
      | Some section_label =>
          if PyStr.truthy section_label then section_label
          else display_name section_type
      | None => display_name section_type
      end
  | None => display_name section_type
  end.

(** The attributes are a [dict[str, str]], as the signature says. A string
    has no attribute [value], so [getattr(sig_raw, "value", str(sig_raw))]
    is the string itself, and [lower] of a string raises nothing: on such
    attributes the [except (AttributeError, TypeError)] branch is not
    taken. *)
Definition _extract_clinical_significance
    (attributes : option (gmap string string)) : option string :=
  match usable_attributes attributes with
  | Some d =>
      match d !! "clinical_significance" with
      | Some sig_raw => Some (PyStr.lower sig_raw)
      | None => None
      end
  | None => None
  end.

(** [int(o) if o is not None else None]. *)
Definition int_or_none (o : PyObj) : outcome (option Z) :=
  if is_none o then mret None else z ← py_int o; mret (Some z).

Definition _extract_positions (start_obj end_obj : PyObj) : option Z * option Z :=
  let start_obj := match attr_start start_obj with Some s => s | None => start_obj end in
  let end_obj := match attr_stop end_obj with Some e => e | None => end_obj end in
  try_except
    (start_position ← int_or_none start_obj;
     end_position ← int_or_none end_obj;
     match start_position, end_position with
     | Some s, Some e => mret (Some s, Some e)
     | _, _ => mret (None, None)
     end)
    (fun _ => (None, None)).

(** Nothing in the body of the source's outer [try] can raise on the values
    of this model ([dict.get], [getattr] with a default and
    [_extract_positions], which catches its own exceptions), so its handler
    is unreachable and the function is total. *)
Definition _get_intervals_from_extraction_dict
    (extraction : Extraction) (char_interval_arg : option CharInterval)
  : list FrontendIntervalDict :=
  let char_interval :=
    match char_interval_arg with
    | Some c => Some c
    | None => char_interval extraction
    end in
  match char_interval with
  | Some ci =>
      let '(start_pos, end_pos) :=
        match ci with
        | CharIntervalDict d => (dict_get d "start_pos", dict_get d "end_pos")
        | CharIntervalObject s e => (s, e)
        end in
      match _extract_positions start_pos end_pos with
      | (Some start_position, Some end_position) =>
          [mkInterval start_position end_position]
      | _ => []
      end
  | None => []
  end.

Definition _create_segments_for_intervals
    (section_type : ReportSectionType) (section_label : string) (content : string)
    (intervals : list FrontendIntervalDict) (significance : option string)
  : list Segment :=
  match intervals with
  | [] => [mkSegment section_type (Some section_label) content [] significance]
  | _ =>
      List.map
        (fun interval =>
           mkSegment section_type (Some section_label) content [interval] significance)
        intervals
  end.

(** The segments one extraction adds to [segments_list]: the loop body. *)
Definition segments_of_extraction (extraction : Extraction) : list Segment :=
  match _map_section (extraction_class extraction) with
  | None => []
  | Some section_type =>
      let section_label :=
        _determine_section_label (attributes extraction) section_type in
      let significance_val :=
        _extract_clinical_significance (attributes extraction) in
      let intervals :=
        _get_intervals_from_extraction_dict extraction (char_interval extraction) in
      _create_segments_for_intervals
        section_type section_label (extraction_text extraction)
        intervals significance_val
  end.

(** The loop: [segments_list.extend(...)] for each extraction in turn. *)
Definition _build_segments_from_langextract_result (result : AnnotatedDocument)
  : list Segment :=
  List.fold_left
    (fun segments_list extraction => segments_list ++ segments_of_extraction extraction)
    (extractions result) [].

(** ** Segment organizer *)

Definition truthy_label (l : option string) : bool :=
  match l with
  | Some s => PyStr.truthy s
  | None => false
  end.

Definition has_type (t : ReportSectionType) (segment : Segment) : bool :=
  bool_decide (type segment = t).

(** State of the grouping loop: [body_segments_by_label] and
    [labels_in_order]. *)
Definition organize_state : Type := gmap string (list Segment) * list string.

(** One round of [for segment in body_segments]. *)
Definition organize_step (st : organize_state) (segment : Segment) : organize_state :=
  match label segment with
  | Some l =>
      if PyStr.truthy l then
        let '(by_label, labels_in_order) :=
          match fst st !! l with
          | None => (<[l := []]> (fst st), snd st ++ [l])
          | Some _ => st
          end in
        (<[l := default [] (by_label !! l) ++ [segment]]> by_label, labels_in_order)
      else st
  | None => st
  end.

(** [body_segments_by_label[label]] is read only at labels taken from
    [labels_in_order], which are keys of the dict (lemma
    [organize_loop_keys]), so the subscript cannot raise [KeyError]. *)
Definition _organize_segments_by_label (segments : list Segment) : list Segment :=
  let prefix_segments := List.filter (has_type PREFIX) segments in
  let body_segments := List.filter (has_type BODY) segments in
  let suffix_segments := List.filter (has_type SUFFIX) segments in
  let '(body_segments_by_label, labels_in_order) :=
    List.fold_left organize_step body_segments (∅, []) in
  prefix_segments
    ++ List.flat_map (fun l => default [] (body_segments_by_label !! l)) labels_in_order
    ++ suffix_segments.

(** ** Text renderer *)

Definition NL : string := String (ascii_of_nat 10) EmptyString.

(** The [OrderedDict] of the renderer, in insertion order. *)
Definition group_key : Type := ReportSectionType * option string.
Definition grouped_dict : Type := list (group_key * list string).

Definition od_get (key : group_key) (grouped : grouped_dict) : list string :=
  match List.find (fun kv => bool_decide (fst kv = key)) grouped with
  | Some kv => snd kv
  | None => []
  end.

(** [grouped.setdefault(key, [])]. *)
Definition od_setdefault (key : group_key) (grouped : grouped_dict) : grouped_dict :=
  if List.existsb (fun kv => bool_decide (fst kv = key)) grouped then grouped
  else grouped ++ [(key, [])].

(** [grouped[key].append(x)]. *)
Definition od_append (key : group_key) (x : string) (grouped : grouped_dict)
  : grouped_dict :=
  List.map (fun kv => if bool_decide (fst kv = key) then (fst kv, snd kv ++ [x]) else kv)
           grouped.

(** [x in l] on a list of strings. *)
Definition str_in (x : string) (l : list string) : bool :=
  List.existsb (PyStr.eqb x) l.

(** One round of the grouping loop. The membership test is on
    [seg.content]; what is stored is [seg.content.strip()]. *)
Definition group_step (grouped : grouped_dict) (seg : Segment) : grouped_dict :=
  let key := (type seg, label seg) in
  let grouped := od_setdefault key grouped in
  if negb (str_in (content seg) (od_get key grouped))
  then od_append key (PyStr.strip (content seg)) grouped
  else grouped.

Definition _group_segments_by_type_and_label (segments : list Segment) : grouped_dict :=
  List.fold_left group_step segments [].

Definition _strip_exam_prefix (text : string) : string :=
  let upper := PyStr.upper text in
  match List.find (fun prefix => PyStr.points_startswith upper (PyStr.code_points prefix))
                  EXAM_PREFIXES with
  | Some prefix => PyStr.lstrip (PyStr.drop (String.length prefix) text)
  | None => PyStr.strip text
  end.

(** [label and label.lower() == s]. *)
Definition label_lower_is (l : option string) (s : string) : bool :=
  match l with
  | Some x => PyStr.truthy x && PyStr.eqb (PyStr.lower x) s
  | None => false
  end.

Definition structured_prefix_exists (segments : list Segment) : bool :=
  List.existsb
    (fun seg =>
       has_type PREFIX seg && truthy_label (label seg)
       && negb (PyStr.eqb (PyStr.lower (default "" (label seg))) PREFIX_LABEL))
    segments.

(** The lines one [(stype, label), contents] item adds in the structured
    branch; the two non-examination branches of the source are the same
    statements. *)
Definition render_prefix_item (item : group_key * list string) : list string :=
  let '((stype, label), contents) := item in
  if negb (bool_decide (stype = PREFIX)) then []
  else if label_lower_is label EXAMINATION_LABEL then
    [EXAMINATION_HEADER; ""]
      ++ List.filter PyStr.truthy (List.map _strip_exam_prefix contents)
      ++ [""]
  else if truthy_label label
          && negb (PyStr.eqb (PyStr.lower (default "" label)) PREFIX_LABEL) then
    List.filter PyStr.truthy contents ++ [""]
  else
    List.filter PyStr.truthy contents ++ [""].

(** Each renderer appends to the shared list [formatted_parts]; the
    embedding returns the list after the call. *)
Definition _render_prefix_sections
    (grouped : grouped_dict) (segments : list Segment) (formatted_parts : list string)
  : list string :=
  if structured_prefix_exists segments then
    List.fold_left (fun parts item => parts ++ render_prefix_item item)
                   grouped formatted_parts
  else
    let plain_prefix :=
      List.fold_left
        (fun plain item =>
           if bool_decide (fst (fst item) = PREFIX) then plain ++ snd item else plain)
        grouped [] in
    match plain_prefix with
    | [] => formatted_parts
    | _ => formatted_parts ++ [PyStr.rstrip (PyStr.join (NL +:+ NL) plain_prefix)]
    end.

(** [f"{label}"]: [None] prints as its name. *)
Definition format_label (l : option string) : string := default "None" l.

Definition render_body_item (item : group_key * list string) : list string :=
  let combined := PyStr.strip (PyStr.join " " (snd item)) in
  if PyStr.truthy combined
  then [format_label (snd (fst item)) +:+ ": " +:+ combined; ""]
  else [].

Definition _render_body_sections
    (grouped : grouped_dict) (formatted_parts : list string) : list string :=
  let body_items :=
    List.filter (fun kv => bool_decide (fst (fst kv) = BODY)) grouped in
  match body_items with
  | [] => formatted_parts
  | _ =>
      let parts :=
        match formatted_parts with [] => [] | _ => formatted_parts ++ [""] end in
      List.fold_left (fun parts item => parts ++ render_body_item item)
                     body_items (parts ++ [FINDINGS_HEADER; ""])
  end.

Definition _render_suffix_sections
    (grouped : grouped_dict) (formatted_parts : list string) : list string :=
  let suffix_items :=
    List.filter (fun kv => bool_decide (fst (fst kv) = SUFFIX)) grouped in
  match suffix_items with
  | [] => formatted_parts
  | _ =>
      let parts :=
        match List.last (List.map Some formatted_parts) None with
        | Some final => if PyStr.truthy (PyStr.strip final)
                        then formatted_parts ++ [""] else formatted_parts
        | None => formatted_parts
        end in
      let suffix_block :=
        PyStr.rstrip (PyStr.join NL (List.flat_map snd suffix_items)) in
      parts ++ [IMPRESSION_HEADER; ""] ++ [suffix_block]
  end.

Definition _format_segments_to_text (segments : list Segment) : string :=
  let grouped := _group_segments_by_type_and_label segments in
  let formatted_parts := _render_prefix_sections grouped segments [] in
  let formatted_parts := _render_body_sections grouped formatted_parts in
  let formatted_parts := _render_suffix_sections grouped formatted_parts in
  PyStr.rstrip (PyStr.join NL formatted_parts).

(** ** Response assembly and [predict] *)

Module SegmentDict.
Record t : Type := mk {
  type : string;
  label : option string;
  content : string;
  intervals : list FrontendIntervalDict;
  significance : option string
}.
End SegmentDict.

Definition to_dict (segment : Segment) : SegmentDict.t :=
  SegmentDict.mk (display_name (type segment)) (label segment) (content segment)
                 (intervals segment) (significance segment).

(** [annotated_document_json]: the empty dict of the error payload, or the
    dict holding the serialized extractions, kept here as the extractions
    themselves. *)
Inductive annotated_json : Type :=
| JsonEmpty
| JsonExtractions (serialized : list Extraction).

Record ResponseDict : Type := mkResponse {
  segments : list SegmentDict.t;
  annotated_document_json : annotated_json;
  text : string;
  raw_prompt : string
}.

(** The structurer object as far as [predict] changes it, together with the
    record of the calls made to the extraction engine. *)
Record Structurer : Type := mkStructurer {
  _patches_initialized : bool;
  engine_calls : list (string * Z)
}.

Section Predict.

(** The extraction engine [lx.extract], an external collaborator: what it
    answers, or raises, on a report text and a buffer size. *)
Variable lx_extract : string -> Z -> outcome AnnotatedDocument.

(** [prompt_lib.generate_markdown_prompt(self.examples, _)]. *)
Variable generate_markdown_prompt : string -> string.

Definition _perform_langextract
    (report_text : string) (max_char_buffer : Z) (self : Structurer)
  : outcome AnnotatedDocument * Structurer :=
  (lx_extract report_text max_char_buffer,
   mkStructurer true (engine_calls self ++ [(report_text, max_char_buffer)])).

Definition _build_response (result : AnnotatedDocument) (report_text : string)
  : ResponseDict :=
  let segments := _build_segments_from_langextract_result result in
  let organized_segments := _organize_segments_by_label segments in
  mkResponse (List.map to_dict organized_segments)
             (JsonExtractions (extractions result))
             (_format_segments_to_text organized_segments)
             (generate_markdown_prompt report_text).

(** [except (ValueError, TypeError, AttributeError) as e]. *)
Definition caught_by_predict (e : exn) : bool :=
  match e with
  | ValueError _ | TypeError _ | AttributeError _ => true
  | OtherException _ => false
  end.

Definition predict (report_text : string) (max_char_buffer : Z) (self : Structurer)
  : outcome ResponseDict * Structurer :=
  if negb (PyStr.truthy (PyStr.strip report_text)) then
    (Raised (ValueError "Report text cannot be empty"), self)
  else
    let '(result, self) := _perform_langextract report_text max_char_buffer self in
    match result with
    | Returned result => (Returned (_build_response result report_text), self)
    | Raised e =>
        if caught_by_predict e then
          (Returned (mkResponse [] JsonEmpty
                                ("Error processing report: " +:+ exn_str e) ""),
           self)
        else (Raised e, self)
    end.

End Predict.

(** ** Cache store ([cache_manager.py]) *)

(** What is at the path of the cache file: nothing, a file that is not a
    JSON text, or a file holding a dict. *)
Inductive cache_file_state (Payload : Type) : Type :=
| FileMissing
| FileUnreadable
| FileHolds (data : gmap string Payload).
Arguments FileMissing {Payload}.
Arguments FileUnreadable {Payload}.
Arguments FileHolds {Payload} data.

(** [os.path.exists(self.cache_file)]. *)
Definition file_exists {Payload : Type} (file : cache_file_state Payload) : bool :=
  match file with
  | FileMissing => false
  | FileUnreadable | FileHolds _ => true
  end.

(** Whether [json.dump] can encode a cached result: it raises [TypeError]
    on a value that is not made of dicts, lists, strings, numbers, booleans
    and [None]. *)
Class JsonEncodable (Payload : Type) := json_encodable : Payload -> bool.

Section Cache.

(** The cached result, opaque to the store. *)
Variable Payload : Type.
Context {encodable : JsonEncodable Payload}.

(** [hashlib.md5(text.encode('utf-8')).hexdigest()]. *)
Variable md5_hexdigest : string -> string.

(** The in-memory map, the file at [self.cache_file], and whether the
    cache directory can be made and the file opened for writing. *)
Record CacheManager : Type := mkCache {
  _cache_data : gmap string Payload;
  cache_file : cache_file_state Payload;
  writable : bool
}.

Definition all_encodable (data : gmap string Payload) : bool :=
  bool_decide (map_Forall (fun _ result => json_encodable result = true) data).

(** [json.dump(self._cache_data, f, indent=2, ensure_ascii=False)] on the
    file just opened with mode ["w"], which has cut it to nothing: the dict
    is written piece by piece, and on a value that cannot be encoded the
    dump stops with an exception and leaves the pieces written so far, which
    are not a JSON text. *)
Definition json_dump (data : gmap string Payload) : cache_file_state Payload :=
  if all_encodable data then FileHolds data else FileUnreadable.

(** [_save_cache]: an exception from [_ensure_cache_dir], [open] or
    [json.dump] is logged and swallowed. When the file cannot be opened it
    stays as it was. *)
Definition _save_cache (self : CacheManager) : CacheManager :=
  if writable self
  then mkCache (_cache_data self) (json_dump (_cache_data self)) (writable self)
  else self.

(** [if sample_id:] holds for an id that is neither [None] nor empty. *)
Definition _get_cache_key (text : string) (sample_id : option string) : string :=
  match sample_id with
  | Some id =>
      if PyStr.truthy id then
        if PyStr.startswith id "sample_" then id else "sample_" +:+ id
      else "custom_" +:+ md5_hexdigest text
  | None => "custom_" +:+ md5_hexdigest text
  end.

Definition get_cached_result
    (text : string) (sample_id : option string) (self : CacheManager)
  : option Payload :=
  let cache_key := _get_cache_key text sample_id in
  _cache_data self !! cache_key.

Definition cache_result
    (text : string) (result : Payload) (sample_id : option string)
    (self : CacheManager) : CacheManager :=
  let cache_key := _get_cache_key text sample_id in
  _save_cache
    (mkCache (<[cache_key := result]> (_cache_data self))
             (cache_file self) (writable self)).

Definition clear_cache (self : CacheManager) : CacheManager :=
  _save_cache (mkCache ∅ (cache_file self) (writable self)).

Definition remove_sample (sample_id : string) (self : CacheManager)
  : bool * CacheManager :=
  let cache_key := "sample_" +:+ sample_id in
  match _cache_data self !! cache_key with
  | Some _ =>
      (true,
       _save_cache
         (mkCache (delete cache_key (_cache_data self))
                  (cache_file self) (writable self)))
  | None => (false, self)
  end.

End Cache.

Arguments mkCache {Payload} _ _ _.
Arguments _cache_data {Payload} _.
Arguments cache_file {Payload} _.
Arguments writable {Payload} _.
Arguments all_encodable {Payload encodable} _.
Arguments json_dump {Payload encodable} _.
Arguments _save_cache {Payload encodable} _.
Arguments get_cached_result {Payload} _ _ _ _.
Arguments cache_result {Payload encodable} _ _ _ _ _.
Arguments clear_cache {Payload encodable} _.
Arguments remove_sample {Payload encodable} _ _.

(** In the examples the cached results are strings, which [json.dump]
    encodes. *)
#[global] Instance string_encodable : JsonEncodable string := fun _ => true.

(** * Specification

    The notions the properties are stated with: what the resolver reads of an
    endpoint, the order of first appearance, grouping by a key, the expected
    output of each component, and the inputs of the examples. *)

(** The distinct elements of a list, each at the place of its first
    occurrence. *)
Fixpoint first_occurrences {K : Type} `{EqDecision K} (l : list K) : list K :=
  match l with
  | [] => []
  | k :: r => k :: List.filter (fun k' => negb (bool_decide (k' = k))) (first_occurrences r)
  end.

(** The elements with a given key, in their order. *)
Definition group_of {A K : Type} `{EqDecision K} (key : A -> K) (k : K) (xs : list A)
  : list A :=
  List.filter (fun x => bool_decide (key x = k)) xs.

(** The list regrouped by key: groups in the order in which the keys first
    appear, the order of the list kept inside each group. *)
Definition grouped_order {A K : Type} `{EqDecision K} (key : A -> K) (xs : list A)
  : list A :=
  List.flat_map (fun k => group_of key k xs) (first_occurrences (List.map key xs)).

(** What the resolver reads of an endpoint: the object behind [start]
    (resp. [stop]) when there is one, and its integer value when [int()]
    accepts it. *)
Definition start_of (o : PyObj) : PyObj := default o (attr_start o).
Definition stop_of (o : PyObj) : PyObj := default o (attr_stop o).

Definition endpoint_int (o : PyObj) : option Z :=
  match o with
  | PyInt z => Some z
  | PyConv r => r
  | PyNone | PySlice _ _ => None
  end.

(** The endpoints of an interval representation, before resolution. *)
Definition raw_endpoints (ci : CharInterval) : PyObj * PyObj :=
  match ci with
  | CharIntervalObject s e => (s, e)
  | CharIntervalDict d => (default PyNone (d !! "start_pos"), default PyNone (d !! "end_pos"))
  end.

(** The intervals the builder resolves for an extraction. *)
Definition resolved_intervals (e : Extraction) : list FrontendIntervalDict :=
  _get_intervals_from_extraction_dict e (char_interval e).

(** The non-empty labels of a list of segments, in order. *)
Definition truthy_labels (xs : list Segment) : list string :=
  List.flat_map
    (fun s => match label s with
              | Some l => if PyStr.truthy l then [l] else []
              | None => []
              end)
    xs.

(** The segments the grouping loop keeps: those with a non-empty label. *)
Definition labelled (xs : list Segment) : list Segment :=
  List.filter (fun s => truthy_label (label s)) xs.

(** The state in which the grouping loop ends on a list of segments. *)
Definition organize_loop (xs : list Segment) : organize_state :=
  List.fold_left organize_step xs (∅, []).

(** The order the organizer is specified to produce: the PREFIX segments,
    the BODY segments regrouped by label, the SUFFIX segments. *)
Definition organized_order (segs : list Segment) : list Segment :=
  List.filter (has_type PREFIX) segs
    ++ grouped_order label (List.filter (has_type BODY) segs)
    ++ List.filter (has_type SUFFIX) segs.

(** A BODY segment whose label is [None] or empty is the only kind of
    segment the grouping loop passes over. *)
Definition kept (s : Segment) : bool :=
  negb (has_type BODY s && negb (truthy_label (label s))).

(** An extraction whose class maps to a zone. *)
Definition is_mapped (e : Extraction) : bool :=
  match _map_section (extraction_class e) with
  | Some _ => true
  | None => false
  end.

(** The interval list a segment is expected to carry: empty when the
    extraction has no interval or when an endpoint is absent or is not
    accepted by [int()]; otherwise the one interval of the two integers, in
    whatever order they come. *)
Definition expected_intervals (e : Extraction) : list FrontendIntervalDict :=
  match char_interval e with
  | None => []
  | Some ci =>
      match endpoint_int (start_of (fst (raw_endpoints ci))),
            endpoint_int (stop_of (snd (raw_endpoints ci))) with
      | Some s, Some t => [mkInterval s t]
      | _, _ => []
      end
  end.

(** The invariant the data model asks of an interval. *)
Definition interval_wf (iv : FrontendIntervalDict) : Prop :=
  (endPos iv > startPos iv)%Z /\ (startPos iv >= 0)%Z.

(** An extraction whose interval runs backwards, from 5 to 3. *)
Definition reversed_interval_document : AnnotatedDocument :=
  mkDocument
    [mkExtraction "Lungs clear." "findings_body" None
                  (Some (CharIntervalObject (PyInt 5) (PyInt 3)))].

(** The label the builder is expected to give: the [section] attribute when
    it is there and not empty, the display name of the zone otherwise. *)
Definition expected_label
    (attrs : option (gmap string string)) (t : ReportSectionType) : string :=
  match attrs ≫= (fun d => d !! "section") with
  | Some s => if decide (s = "") then display_name t else s
  | None => display_name t
  end.

(** A single BODY segment without a label. *)
Definition unlabelled_body : list Segment :=
  [mkSegment BODY None "Heart size is normal." [] None].

(** Two BODY segments, the second with an empty label. *)
Definition partly_labelled_body : list Segment :=
  [mkSegment BODY (Some "Lungs") "Lungs are clear." [] None;
   mkSegment BODY (Some "") "No pleural effusion." [] None].

(** Segments of the three zones in mixed order, two labels interleaved. *)
Definition interleaved_report : list Segment :=
  [mkSegment SUFFIX (Some "suffix") "No acute disease." [] None;
   mkSegment BODY (Some "Lungs") "Lungs are clear." [] None;
   mkSegment PREFIX (Some "prefix") "Chest radiograph." [] None;
   mkSegment BODY (Some "Heart") "Heart size is normal." [] None;
   mkSegment BODY (Some "Lungs") "No effusion." [] None].

(** The letters a to z replaced by their capitals. *)
Definition capitals (text : string) : string :=
  PyStr.map_chars
    (fun a => let n := nat_of_ascii a in
              if Nat.leb 97 n && Nat.leb n 122 then ascii_of_nat (n - 32) else a)
    text.

(** A digest for the examples: any function of the text will do. *)
Definition example_digest (text : string) : string := capitals text.

(** A report of blanks, a line feed and a tab. *)
Definition blank_report : string :=
  "   " +:+ NL +:+ String (ascii_of_nat 9) "  ".

(** A report of white space beyond code point 127: a no-break space
    U+00A0, the next-line control U+0085, and a blank. *)
Definition no_break_report : string :=
  String (ascii_of_nat 160) (String (ascii_of_nat 133) " ").

(** An engine without credentials. *)
Definition failing_engine (report_text : string) (max_char_buffer : Z)
  : outcome AnnotatedDocument :=
  Raised (ValueError "API key must be provided").

(** The same sentence extracted twice, with a blank after the full stop. *)
Definition repeated_sentence : AnnotatedDocument :=
  mkDocument
    [mkExtraction "Lungs are clear. " "findings_body"
                  (Some (<["section" := "Lungs"]> ∅)) None;
     mkExtraction "Lungs are clear. " "findings_body"
                  (Some (<["section" := "Lungs"]> ∅)) None].

(** A group of the prefix zone. *)
Definition is_prefix_item (item : group_key * list string) : bool :=
  bool_decide (fst (fst item) = PREFIX).



(** The lines of one prefix group: under the banner, with the examination
    prefix stripped, for the group labelled "examination"; the contents
    alone for any other group; a blank line closes the block. *)
Definition prefix_block (label : option string) (contents : list string) : list string :=
  if bool_decide (PyStr.lower <$> label = Some EXAMINATION_LABEL)
  then [EXAMINATION_HEADER; ""]
         ++ List.filter PyStr.truthy (List.map _strip_exam_prefix contents) ++ [""]
  else List.filter PyStr.truthy contents ++ [""].

(** An examination line and a titled line in the prefix zone. *)
Definition examined_prefix : list Segment :=
  [mkSegment PREFIX (Some "examination") "EXAMINATION: Chest CT" [] None;
   mkSegment PREFIX (Some "Study Title") "Phase III trial" [] None].


(** The key under which the renderer files a segment. *)
Definition segment_key (s : Segment) : group_key := (type s, label s).

(** The groups a deduplicating renderer builds: one per key, in order of
    first appearance, holding the distinct contents of the key's segments in
    order of first appearance. *)
Definition deduplicated_groups (segs : list Segment) : grouped_dict :=
  List.map
    (fun k => (k, first_occurrences (List.map content (group_of segment_key k segs))))
    (first_occurrences (List.map segment_key segs)).

(** * Further code of the repository *)

(** ** Cache statistics, start-up and batch population ([cache_manager.py]) *)

(** The dict returned by [get_cache_stats]. *)
Record CacheStats : Type := mkStats {
  total_entries : nat;
  sample_entries : nat;
  custom_entries : nat;
  stats_cache_file : string;
  cache_file_exists : bool
}.

(** The cache directory as [prepopulate_cache_with_samples] sees it: the
    manager with its file, the lock marker [.cache_lock], and the seconds
    spent in [time.sleep]. *)
Record CacheDir (Payload : Type) : Type := mkCacheDir {
  manager : CacheManager Payload;
  lock_file : bool;
  slept : nat
}.
Arguments mkCacheDir {Payload} _ _ _.
Arguments manager {Payload} _.
Arguments lock_file {Payload} _.
Arguments slept {Payload} _.

Section CacheBatch.
Context {Payload : Type} {encodable : JsonEncodable Payload}.

(** [hashlib.md5(text.encode('utf-8')).hexdigest()]. *)
Variable md5_hexdigest : string -> string.

(** Truth value of a cached payload, as [if cached_result:] tests it. *)
Variable payload_truthy : Payload -> bool.

(** [sum(1 for key in self._cache_data.keys() if key.startswith(prefix))]. *)
Definition count_keys (prefix : string) (data : gmap string Payload) : nat :=
  length (List.filter (fun key => PyStr.startswith key prefix)
                      (List.map fst (map_to_list data))).

(** [cache_file] is the path the manager was built with. *)
Definition get_cache_stats (cache_file_path : string) (self : CacheManager Payload)
  : CacheStats :=
  mkStats (size (_cache_data self))
          (count_keys "sample_" (_cache_data self))
          (count_keys "custom_" (_cache_data self))
          cache_file_path
          (file_exists (cache_file self)).


(** [sample.get("id")] and [sample.get("text", "")] on a sample dict. *)
Definition sample_get_id (sample : gmap string string) : option string :=
  sample !! "id".

Definition sample_get_text (sample : gmap string string) : string :=
  default "" (sample !! "text").

(** One round of the loop over [sample_reports]. *)
Definition prepopulate_step
    (structurer_callable : string -> outcome Payload) (force_refresh : bool)
    (dir : CacheDir Payload) (sample : gmap string string) : CacheDir Payload :=
  let sample_id := sample_get_id sample in
  let sample_text := sample_get_text sample in
  if negb (truthy_label sample_id) || negb (PyStr.truthy sample_text) then dir
  else if negb force_refresh
          && match get_cached_result md5_hexdigest sample_text sample_id (manager dir) with
             | Some cached => payload_truthy cached
             | None => false
             end
  then dir
  else
    match structurer_callable sample_text with
    | Returned result =>
        mkCacheDir
          (cache_result md5_hexdigest sample_text result sample_id (manager dir))
          (lock_file dir) (slept dir + 6)
    | Raised _ => dir
    end.

(** [prepopulate_cache_with_samples]. Creating the lock and removing it
    are writes in the cache directory: where the file system refuses writes,
    [open(lock_file, "w")] raises inside the [try], and [os.remove] of a
    lock that is there raises from the [finally]. *)
Definition prepopulate_cache_with_samples
    (sample_reports : list (gmap string string))
    (structurer_callable : string -> outcome Payload) (force_refresh : bool)
    (dir : CacheDir Payload) : outcome unit * CacheDir Payload :=
  match sample_reports with
  | [] => (Returned tt, dir)
  | _ =>
      if lock_file dir && negb force_refresh then (Returned tt, dir)
      else if writable (manager dir) then
        let dir := mkCacheDir (manager dir) true (slept dir) in
        let dir :=
          List.fold_left (prepopulate_step structurer_callable force_refresh)
                         sample_reports dir in
        let dir := mkCacheDir (_save_cache (manager dir)) (lock_file dir) (slept dir) in
        (Returned tt, mkCacheDir (manager dir) false (slept dir))
      else if lock_file dir
      then (Raised (OtherException "PermissionError"), dir)
      else (Returned tt, dir)
  end.

End CacheBatch.

(** ** Cleaning of prompt examples ([prompt_lib.py]) *)

(** The values [clean_dict] walks: [None], a scalar (a string, a number or
    a boolean, all alike to the function), a list, and a dict in insertion
    order. *)
Unset Elimination Schemes.
Inductive json (Scalar : Type) : Type :=
| JNone
| JScalar (v : Scalar)
| JList (items : list (json Scalar))
| JDict (items : list (string * json Scalar)).
Set Elimination Schemes.
Arguments JNone {Scalar}.
Arguments JScalar {Scalar} v.
Arguments JList {Scalar} items.
Arguments JDict {Scalar} items.

Definition is_JNone {Scalar} (obj : json Scalar) : bool :=
  match obj with JNone => true | _ => false end.

(** [v is not None and v != {} and v != []]. *)
Definition kept_value {Scalar} (cleaned_value : json Scalar) : bool :=
  match cleaned_value with
  | JNone | JDict [] | JList [] => false
  | _ => true
  end.

Fixpoint clean_dict {Scalar} (obj : json Scalar) : json Scalar :=
  match obj with
  | JDict items =>
      JDict
        ((fix clean_items (items : list (string * json Scalar)) :=
            match items with
            | [] => []
            | (key, value) :: rest =>
                let cleaned_value := clean_dict value in
                if kept_value cleaned_value
                then (key, cleaned_value) :: clean_items rest
                else clean_items rest
            end) items)
  | JList items =>
      JList
        ((fix clean_list (items : list (json Scalar)) :=
            match items with
            | [] => []
            | item :: rest =>
                if is_JNone (clean_dict item) then clean_list rest
                else clean_dict item :: clean_list rest
            end) items)
  | JNone | JScalar _ => obj
  end.

(** * Further notions for the properties *)

(** The last and the first character of a string. *)
Fixpoint last_char (s : string) : option ascii :=
  match s with
  | EmptyString => None
  | String a EmptyString => Some a
  | String _ r => last_char r
  end.

Definition first_char (s : string) : option ascii :=
  match s with
  | EmptyString => None
  | String a _ => Some a
  end.

(** The classes the section mapper knows, once lower-cased and stripped,
    with their zones. *)
Definition section_table : list (string * ReportSectionType) :=
  [("document_header", PREFIX); ("methodology_body", BODY); ("results_body", BODY);
   ("conclusions_suffix", SUFFIX); ("findings_prefix", PREFIX);
   ("findings_body", BODY); ("findings_suffix", SUFFIX)].

(** The keys of the renderer's ordered dict, in its order. *)
Definition od_keys (grouped : grouped_dict) : list group_key := List.map fst grouped.

(** The groups of one zone, in the order of the dict. *)
Definition zone_items (t : ReportSectionType) (grouped : grouped_dict) : grouped_dict :=
  List.filter (fun kv => bool_decide (fst (fst kv) = t)) grouped.

(** An extraction of a class the mapper does not know. *)
Definition unmapped_extraction : Extraction :=
  mkExtraction "Signed electronically." "signature" None None.

(** An engine that answers with the extractions of [repeated_sentence]. *)
Definition echo_engine (report_text : string) (max_char_buffer : Z)
  : outcome AnnotatedDocument :=
  Returned repeated_sentence.

(** An engine that fails outside the exceptions [predict] handles. *)
Definition crashing_engine (report_text : string) (max_char_buffer : Z)
  : outcome AnnotatedDocument :=
  Raised (OtherException "connection reset").

(** A cache key in one of the two namespaces of [_get_cache_key]. *)
Definition key_in_namespace (key : string) : bool :=
  PyStr.startswith key "sample_" || PyStr.startswith key "custom_".

(** Every key of the store is in a namespace. *)
Definition keys_in_namespace {Payload : Type} (self : CacheManager Payload) : Prop :=
  map_Forall (fun key _ => key_in_namespace key = true) (_cache_data self).


(** Samples and a computation for the examples: payloads are strings, the
    computation upper-cases the text and fails on "broken". *)
Definition example_samples : list (gmap string string) :=
  [<["id" := "1"]> (<["text" := "chest"]> ∅);
   <["id" := "2"]> (<["text" := "broken"]> ∅);
   <["text" := "no id"]> ∅].

Definition example_callable (text : string) : outcome string :=
  if PyStr.eqb text "broken" then Raised (ValueError "model failure")
  else Returned (capitals text).



(** Results for an example of a failed dump: a string, or an object that
    [json.dump] cannot encode. *)
Inductive example_result : Type :=
| ResultText (text : string)
| ResultObject.

#[global] Instance example_result_encodable : JsonEncodable example_result :=
  fun result => match result with ResultText _ => true | ResultObject => false end.


(** The contents one group accumulates from its segments, taken in order:
    a segment adds its stripped content unless its content, as it is, is
    already there. *)
Definition group_contents (segs : list Segment) : list string :=
  List.fold_left
    (fun acc seg =>
       if str_in (content seg) acc then acc else acc ++ [PyStr.strip (content seg)])
    segs [].

(** A value with nothing left to clean: no dict entry holds [None], an
    empty dict or an empty list, and no list holds [None], at any depth. *)
Fixpoint well_cleaned {Scalar} (obj : json Scalar) : bool :=
  match obj with
  | JDict items =>
      (fix entries (items : list (string * json Scalar)) :=
         match items with
         | [] => true
         | (_, value) :: rest => kept_value value && well_cleaned value && entries rest
         end) items
  | JList items =>
      (fix elements (items : list (json Scalar)) :=
         match items with
         | [] => true
         | item :: rest => negb (is_JNone item) && well_cleaned item && elements rest
         end) items
  | JNone | JScalar _ => true
  end.

(** An example of [langextract] output as a dict: an attribute-less
    extraction inside a list. *)
Definition example_json : json string :=
  JDict [("extractions",
          JList [JDict [("extraction_class", JScalar "findings_body");
                        ("attributes", JDict [("section", JNone)]);
                        ("char_interval", JNone);
                        ("alternatives", JList [JNone])]]);
         ("description", JNone)].

(** Induction on values that goes through the lists and the dicts. *)
Section JsonInduction.
Context {Scalar : Type} (P : json Scalar -> Prop).
Hypothesis HNone : P JNone.
Hypothesis HScalar : forall v, P (JScalar v).
Hypothesis HList : forall items, Forall P items -> P (JList items).
Hypothesis HDict : forall items, Forall (fun kv => P (snd kv)) items -> P (JDict items).

Fixpoint json_nested_ind (obj : json Scalar) : P obj :=
  match obj with
  | JNone => HNone
  | JScalar v => HScalar v
  | JList items =>
      HList items
        ((fix all (items : list (json Scalar)) : Forall P items :=
            match items with
            | [] => @List.Forall_nil _ P
            | item :: rest =>
                @List.Forall_cons _ P item rest (json_nested_ind item) (all rest)
            end) items)
  | JDict items =>
      HDict items
        ((fix all (items : list (string * json Scalar))
            : Forall (fun kv => P (snd kv)) items :=
            match items with
            | [] => @List.Forall_nil _ (fun kv => P (snd kv))
            | kv :: rest =>
                @List.Forall_cons _ (fun kv => P (snd kv)) kv rest
                  (match kv return P (snd kv) with (_, value) => json_nested_ind value end)
                  (all rest)
            end) items)
  end.

End JsonInduction.

(** * Properties *)

(** ** Builder *)

Lemma fold_left_extend {A B} (f : A -> list B) (l : list A) (acc : list B) :
  List.fold_left (fun acc x => acc ++ f x) l acc = acc ++ List.flat_map f l.
Proof.
  revert acc. induction l as [|x l IH]; intros acc; simpl.
  - by rewrite app_nil_r.
  - rewrite IH. by rewrite <- app_assoc.
Qed.

Lemma build_segments_flat_map (result : AnnotatedDocument) :
  _build_segments_from_langextract_result result
  = List.flat_map segments_of_extraction (extractions result).
Proof. unfold _build_segments_from_langextract_result. by rewrite fold_left_extend. Qed.

Lemma int_or_none_spec (o : PyObj) :
  int_or_none o =
    match o with
    | PyNone => Returned None
    | _ => match endpoint_int o with
           | Some z => Returned (Some z)
           | None => Raised (match o with
                             | PyConv _ => ValueError "invalid literal for int()"
                             | _ => TypeError "int() argument must be a string or a number"
                             end)
           end
    end.
Proof. destruct o as [| z | s e | [z|]]; reflexivity. Qed.

Lemma extract_positions_spec (start_obj end_obj : PyObj) :
  _extract_positions start_obj end_obj =
    match endpoint_int (start_of start_obj), endpoint_int (stop_of end_obj) with
    | Some s, Some e => (Some s, Some e)
    | _, _ => (None, None)
    end.
Proof.
  unfold _extract_positions, start_of, stop_of.
  destruct start_obj as [| zs | [| zs | s1 s2 | [zs|]] s' | [zs|]];
    destruct end_obj as [| ze | e' [| ze | e1 e2 | [ze|]] | [ze|]];
    reflexivity.
Qed.

Lemma resolved_intervals_spec (e : Extraction) :
  resolved_intervals e =
    match char_interval e with
    | None => []
    | Some ci =>
        match endpoint_int (start_of (fst (raw_endpoints ci))),
              endpoint_int (stop_of (snd (raw_endpoints ci))) with
        | Some s, Some t => [mkInterval s t]
        | _, _ => []
        end
    end.
Proof.
  unfold resolved_intervals, _get_intervals_from_extraction_dict.
  destruct (char_interval e) as [ci|]; [|done].
  destruct ci as [s t | d]; simpl; unfold dict_get;
    rewrite extract_positions_spec;
    repeat case_match; simplify_eq; done.
Qed.

Lemma resolved_intervals_length (e : Extraction) :
  (length (resolved_intervals e) <= 1)%nat.
Proof.
  rewrite resolved_intervals_spec. repeat case_match; simpl; lia.
Qed.

(** A mapped extraction yields one segment, which carries whatever was
    resolved; an unmapped one yields none. *)
Lemma segments_of_extraction_spec (e : Extraction) :
  segments_of_extraction e =
    match _map_section (extraction_class e) with
    | None => []
    | Some section_type =>
        [mkSegment section_type
                   (Some (_determine_section_label (attributes e) section_type))
                   (extraction_text e)
                   (resolved_intervals e)
                   (_extract_clinical_significance (attributes e))]
    end.
Proof.
  unfold segments_of_extraction.
  destruct (_map_section (extraction_class e)) as [ty|]; [|done].
  fold (resolved_intervals e).
  pose proof (resolved_intervals_length e) as Hlen.
  unfold _create_segments_for_intervals.
  destruct (resolved_intervals e) as [|iv [|iv' rest]]; simpl in *; [done | done | lia].
Qed.

(** ** Order of first appearance and grouping by a key *)

Section FirstOccurrences.
Context {K : Type} `{EqDecision K}.

Lemma in_first_occurrences (k : K) (l : list K) :
  In k (first_occurrences l) <-> In k l.
Proof.
  induction l as [|a l IH]; simpl; [done|].
  rewrite filter_In, IH.
  destruct (decide (k = a)) as [->|Hne].
  - split; auto.
  - rewrite bool_decide_eq_false_2 by done. simpl. split.
    + intros [?|[? _]]; auto.
    + intros [?|?]; auto.
Qed.

Lemma NoDup_filter_bool (f : K -> bool) (l : list K) :
  List.NoDup l -> List.NoDup (List.filter f l).
Proof.
  induction 1 as [|a l Hnin Hnd IH]; simpl; [constructor|].
  destruct (f a); [|done].
  constructor; [|done]. rewrite filter_In. tauto.
Qed.

Lemma NoDup_first_occurrences (l : list K) : List.NoDup (first_occurrences l).
Proof.
  induction l as [|a l IH]; simpl; constructor.
  - rewrite filter_In. intros [_ Hf].
    rewrite bool_decide_eq_true_2 in Hf by done. done.
  - by apply NoDup_filter_bool.
Qed.

Lemma first_occurrences_snoc (l : list K) (k : K) :
  first_occurrences (l ++ [k])
  = first_occurrences l ++ (if decide (k ∈ l) then [] else [k]).
Proof.
  induction l as [|a l IH]; simpl.
  - destruct (decide (k ∈ [])) as [Hin|]; [by apply elem_of_nil in Hin | done].
  - rewrite IH, List.filter_app. f_equal. f_equal.
    destruct (decide (k ∈ l)) as [Hin|Hnin].
    + destruct (decide (k ∈ a :: l)) as [|Hn]; [done|].
      exfalso. apply Hn. by right.
    + simpl. destruct (decide (k = a)) as [->|Hne].
      * rewrite bool_decide_eq_true_2 by done. simpl.
        destruct (decide (a ∈ a :: l)) as [|Hn]; [done|].
        exfalso. apply Hn. by left.
      * rewrite bool_decide_eq_false_2 by done. simpl.
        destruct (decide (k ∈ a :: l)) as [Hin|]; [|done].
        apply elem_of_cons in Hin as [?|?]; done.
Qed.

End FirstOccurrences.

Lemma first_occurrences_map_Some {K} `{EqDecision K} (l : list K) :
  first_occurrences (List.map Some l) = List.map Some (first_occurrences l).
Proof.
  induction l as [|a l IH]; simpl; [done|].
  f_equal. rewrite IH. generalize (first_occurrences l) as m.
  induction m as [|b m IHm]; simpl; [done|].
  destruct (decide (b = a)) as [->|Hne].
  - rewrite !bool_decide_eq_true_2 by done. simpl. done.
  - rewrite (bool_decide_eq_false_2 (b = a)) by done.
    rewrite (bool_decide_eq_false_2 (Some b = Some a)) by congruence.
    simpl. by rewrite IHm.
Qed.

Section GroupBy.
Context {A K : Type} `{EqDecision K} (key : A -> K).

Lemma group_of_snoc (k : K) (xs : list A) (x : A) :
  group_of key k (xs ++ [x])
  = group_of key k xs ++ (if decide (key x = k) then [x] else []).
Proof.
  unfold group_of. rewrite List.filter_app. simpl.
  destruct (decide (key x = k)).
  - by rewrite bool_decide_eq_true_2.
  - by rewrite bool_decide_eq_false_2.
Qed.

Lemma group_of_absent (k : K) (xs : list A) :
  ~ In k (List.map key xs) -> group_of key k xs = [].
Proof.
  intros Hnin. induction xs as [|x xs IH]; simpl in *; [done|].
  rewrite bool_decide_eq_false_2 by (intros ?; apply Hnin; by left).
  apply IH. intros ?; apply Hnin; by right.
Qed.

Lemma flat_map_snoc_absent (g : K -> list A) (x : A) (l : list K) :
  ~ In (key x) l ->
  List.flat_map (fun k => g k ++ (if decide (key x = k) then [x] else [])) l
  = List.flat_map g l.
Proof.
  induction l as [|a l IH]; simpl; [done|]. intros Hnin.
  destruct (decide (key x = a)) as [Heq|Hne].
  - exfalso. apply Hnin. by left.
  - rewrite app_nil_r, IH; [done|]. intros ?. apply Hnin. by right.
Qed.

Lemma flat_map_snoc_present (g : K -> list A) (x : A) (l : list K) :
  List.NoDup l -> In (key x) l ->
  Permutation
    (List.flat_map (fun k => g k ++ (if decide (key x = k) then [x] else [])) l)
    (List.flat_map g l ++ [x]).
Proof.
  induction 1 as [|a l Hnin Hnd IH]; simpl; [done|].
  intros [Ha|Hin].
  - subst a. destruct (decide (key x = key x)); [|done].
    rewrite (flat_map_snoc_absent g x l Hnin).
    rewrite <- !app_assoc. apply Permutation_app_head, Permutation_app_comm.
  - destruct (decide (key x = a)) as [Heq|Hne].
    + subst a. done.
    + rewrite app_nil_r, <- app_assoc. by apply Permutation_app_head, IH.
Qed.

Lemma grouped_order_perm (xs : list A) : Permutation (grouped_order key xs) xs.
Proof.
  induction xs as [|x xs IH] using rev_ind; [done|].
  unfold grouped_order in *.
  rewrite List.map_app. simpl. rewrite first_occurrences_snoc.
  rewrite (flat_map_ext _ _ (fun k => group_of_snoc k xs x)).
  destruct (decide (key x ∈ List.map key xs)) as [Hin|Hnin];
    rewrite list_elem_of_In in *.
  - rewrite app_nil_r.
    rewrite flat_map_snoc_present;
      [| apply NoDup_first_occurrences | by apply in_first_occurrences].
    by apply Permutation_app_tail.
  - rewrite List.flat_map_app. simpl. rewrite app_nil_r.
    rewrite (group_of_absent _ _ Hnin). simpl.
    destruct (decide (key x = key x)); [|done].
    rewrite flat_map_snoc_absent by (by rewrite in_first_occurrences).
    by apply Permutation_app_tail.
Qed.

End GroupBy.

(** ** Organizer *)

Lemma truthy_labels_snoc (xs : list Segment) (x : Segment) :
  truthy_labels (xs ++ [x])
  = truthy_labels xs
      ++ match label x with
         | Some l => if PyStr.truthy l then [l] else []
         | None => []
         end.
Proof.
  unfold truthy_labels. rewrite List.flat_map_app. simpl. by rewrite app_nil_r.
Qed.

Lemma truthy_labels_truthy (xs : list Segment) (l : string) :
  l ∈ truthy_labels xs -> PyStr.truthy l = true.
Proof.
  rewrite list_elem_of_In. unfold truthy_labels. rewrite in_flat_map.
  intros (s & _ & Hl). destruct (label s) as [l'|]; [|done].
  destruct (PyStr.truthy l') eqn:Ht; [|done].
  destruct Hl as [<-|[]]. done.
Qed.

Lemma group_of_label_absent (xs : list Segment) (l : string) :
  PyStr.truthy l = true -> l ∉ truthy_labels xs -> group_of label (Some l) xs = [].
Proof.
  intros Ht. induction xs as [|x xs IH]; [done|].
  change (x :: xs) with ([x] ++ xs) at 1.
  unfold truthy_labels. rewrite List.flat_map_app. fold (truthy_labels xs).
  rewrite elem_of_app. intros Hnin.
  change (group_of label (Some l) (x :: xs))
    with (if bool_decide (label x = Some l)
          then x :: group_of label (Some l) xs else group_of label (Some l) xs).
  destruct (decide (label x = Some l)) as [Heq|Hne].
  - exfalso. apply Hnin. left. simpl. rewrite Heq, Ht. by left.
  - rewrite bool_decide_eq_false_2 by done. apply IH. intros ?. apply Hnin. by right.
Qed.

Lemma organize_loop_invariant (xs : list Segment) :
  snd (organize_loop xs) = first_occurrences (truthy_labels xs)
  /\ forall l : string,
       fst (organize_loop xs) !! l
       = if decide (l ∈ truthy_labels xs)
         then Some (group_of label (Some l) xs) else None.
Proof.
  induction xs as [|x xs [IHl IHm]] using rev_ind.
  - split; [done|]. intros l. simpl.
    destruct (decide (l ∈ truthy_labels [])) as [Hin|]; [by apply elem_of_nil in Hin|].
    apply lookup_empty.
  - unfold organize_loop in *. rewrite List.fold_left_app. cbn [List.fold_left].
    rewrite truthy_labels_snoc.
    destruct (List.fold_left organize_step xs (∅, [])) as [m ls] eqn:Hst.
    cbn [fst snd] in IHl, IHm. unfold organize_step. cbn [fst snd].
    destruct (label x) as [l0|] eqn:Hlx; [destruct (PyStr.truthy l0) eqn:Ht0|].
    + (* a labelled segment *)
      rewrite first_occurrences_snoc.
      specialize (IHm l0) as Hm0.
      destruct (decide (l0 ∈ truthy_labels xs)) as [Hin0|Hnin0]; rewrite Hm0;
        cbn [fst snd].
      * split; [by rewrite app_nil_r|]. intros l.
        rewrite group_of_snoc, Hlx, Hm0. cbn [default].
        destruct (decide (Some l0 = Some l)) as [Heq|Hne].
        -- simplify_eq. rewrite lookup_insert_eq.
           rewrite decide_True by (apply elem_of_app; by left). done.
        -- rewrite lookup_insert_ne by congruence. rewrite IHm, app_nil_r.
           destruct (decide (l ∈ truthy_labels xs)) as [Hin|Hnin].
           ++ rewrite decide_True by (apply elem_of_app; by left). done.
           ++ rewrite decide_False; [done|]. rewrite elem_of_app, list_elem_of_singleton.
              intros [?|?]; [done | congruence].
      * split; [by rewrite IHl|]. intros l.
        rewrite group_of_snoc, Hlx, lookup_insert_eq. cbn [default app].
        destruct (decide (Some l0 = Some l)) as [Heq|Hne].
        -- simplify_eq. rewrite lookup_insert_eq.
           rewrite decide_True by (apply elem_of_app; right; by left).
           by rewrite group_of_label_absent.
        -- rewrite !lookup_insert_ne by congruence. rewrite IHm, app_nil_r.
           destruct (decide (l ∈ truthy_labels xs)) as [Hin|Hnin].
           ++ rewrite decide_True by (apply elem_of_app; by left). done.
           ++ rewrite decide_False; [done|]. rewrite elem_of_app, list_elem_of_singleton.
              intros [?|?]; [done | congruence].
    + (* an empty label *)
      rewrite app_nil_r. split; [done|]. intros l.
      rewrite IHm, group_of_snoc, Hlx.
      destruct (decide (l ∈ truthy_labels xs)) as [Hin|]; [|done].
      destruct (decide (Some l0 = Some l)) as [Heq|]; [|by rewrite app_nil_r].
      simplify_eq. apply truthy_labels_truthy in Hin. congruence.
    + (* no label *)
      rewrite app_nil_r. split; [done|]. intros l.
      rewrite IHm, group_of_snoc, Hlx.
      destruct (decide (l ∈ truthy_labels xs)); [|done].
      destruct (decide (None = Some l)); [done | by rewrite app_nil_r].
Qed.

(** The subscript [body_segments_by_label[label]] never misses: every
    label of [labels_in_order] is a key of the dict. *)
Lemma organize_loop_keys (xs : list Segment) (l : string) :
  In l (snd (organize_loop xs)) -> is_Some (fst (organize_loop xs) !! l).
Proof.
  destruct (organize_loop_invariant xs) as [Hl Hm].
  rewrite Hl, in_first_occurrences, <- list_elem_of_In. intros Hin.
  rewrite Hm, decide_True by done. eauto.
Qed.

Lemma filter_filter_bool {A} (f g : A -> bool) (l : list A) :
  List.filter f (List.filter g l) = List.filter (fun x => g x && f x) l.
Proof.
  induction l as [|x l IH]; simpl; [done|].
  destruct (g x); simpl; [destruct (f x)|]; by rewrite ?IH.
Qed.

Lemma flat_map_ext_In {A B} (f g : A -> list B) (l : list A) :
  (forall a, In a l -> f a = g a) -> List.flat_map f l = List.flat_map g l.
Proof.
  induction l as [|a l IH]; simpl; [done|]. intros H.
  rewrite (H a) by (by left). rewrite IH; [done|]. intros; apply H; by right.
Qed.

Lemma flat_map_map_Some {A B} (f : option A -> list B) (l : list A) :
  List.flat_map f (List.map Some l) = List.flat_map (fun a => f (Some a)) l.
Proof. induction l as [|a l IH]; simpl; by rewrite ?IH. Qed.

Lemma has_type_true (t : ReportSectionType) (s : Segment) :
  has_type t s = true <-> type s = t.
Proof. unfold has_type. apply bool_decide_eq_true. Qed.

Lemma filter_kept_type (t : ReportSectionType) (segs : list Segment) :
  t <> BODY ->
  List.filter (has_type t) (List.filter kept segs) = List.filter (has_type t) segs.
Proof.
  intros Ht. rewrite filter_filter_bool. apply List.filter_ext. intros s.
  unfold kept, has_type.
  destruct (decide (type s = t)) as [Heq|Hne].
  - rewrite (bool_decide_eq_true_2 (type s = t)) by done.
    rewrite (bool_decide_eq_false_2 (type s = BODY)) by congruence. done.
  - rewrite (bool_decide_eq_false_2 (type s = t)) by done. apply andb_false_r.
Qed.

Lemma filter_kept_body (segs : list Segment) :
  List.filter (has_type BODY) (List.filter kept segs)
  = labelled (List.filter (has_type BODY) segs).
Proof.
  unfold labelled. rewrite !filter_filter_bool. apply List.filter_ext. intros s.
  unfold kept. destruct (has_type BODY s), (truthy_label (label s)); done.
Qed.

Lemma map_label_labelled (xs : list Segment) :
  List.map label (labelled xs) = List.map Some (truthy_labels xs).
Proof.
  induction xs as [|x xs IH]; [done|].
  unfold labelled, truthy_labels in *. simpl.
  destruct (label x) as [l|] eqn:Hl; simpl; [|done].
  destruct (PyStr.truthy l); simpl; [|done].
  by rewrite Hl, IH.
Qed.

Lemma group_of_labelled (xs : list Segment) (l : string) :
  PyStr.truthy l = true ->
  group_of label (Some l) (labelled xs) = group_of label (Some l) xs.
Proof.
  intros Ht. unfold group_of, labelled. rewrite filter_filter_bool.
  apply List.filter_ext. intros s.
  destruct (decide (label s = Some l)) as [Heq|Hne].
  - rewrite bool_decide_eq_true_2 by done. rewrite Heq. simpl. by rewrite Ht.
  - rewrite bool_decide_eq_false_2 by done. apply andb_false_r.
Qed.

(** The organizer as a closed expression: the groups are those of the
    non-empty labels of the BODY segments, in order of first appearance. *)
Lemma organize_unfold (segs : list Segment) :
  _organize_segments_by_label segs
  = List.filter (has_type PREFIX) segs
      ++ List.flat_map
           (fun l => group_of label (Some l) (List.filter (has_type BODY) segs))
           (first_occurrences (truthy_labels (List.filter (has_type BODY) segs)))
      ++ List.filter (has_type SUFFIX) segs.
Proof.
  unfold _organize_segments_by_label.
  set (body := List.filter (has_type BODY) segs).
  destruct (organize_loop_invariant body) as [Hl Hm].
  unfold organize_loop in *.
  destruct (List.fold_left organize_step body (∅, [])) as [m ls].
  cbn [fst snd] in *. subst ls. f_equal. f_equal.
  apply flat_map_ext_In. intros l Hin.
  rewrite in_first_occurrences, <- list_elem_of_In in Hin.
  by rewrite Hm, decide_True.
Qed.

Lemma organize_eq_organized_order (segs : list Segment) :
  _organize_segments_by_label segs = organized_order (List.filter kept segs).
Proof.
  rewrite organize_unfold. unfold organized_order.
  rewrite (filter_kept_type PREFIX), (filter_kept_type SUFFIX) by done.
  rewrite filter_kept_body.
  f_equal. f_equal. unfold grouped_order.
  rewrite map_label_labelled, first_occurrences_map_Some, flat_map_map_Some.
  apply flat_map_ext_In. intros l Hin. symmetry. apply group_of_labelled.
  apply (truthy_labels_truthy (List.filter (has_type BODY) segs)).
  by rewrite list_elem_of_In, <- in_first_occurrences.
Qed.

Lemma zones_perm (segs : list Segment) :
  Permutation
    (List.filter (has_type PREFIX) segs
       ++ List.filter (has_type BODY) segs
       ++ List.filter (has_type SUFFIX) segs)
    segs.
Proof.
  induction segs as [|s segs IH]; [done|].
  unfold has_type in *. simpl. destruct (type s); simpl.
  - by apply perm_skip.
  - symmetry. apply Permutation_cons_app. by symmetry.
  - symmetry. rewrite app_assoc. apply Permutation_cons_app.
    rewrite <- app_assoc. by symmetry.
Qed.

Lemma organized_order_perm (segs : list Segment) :
  Permutation (organized_order segs) segs.
Proof.
  unfold organized_order. rewrite grouped_order_perm. apply zones_perm.
Qed.

Lemma filter_kept_all (segs : list Segment) :
  Forall (fun s => type s = BODY -> truthy_label (label s) = true) segs ->
  List.filter kept segs = segs.
Proof.
  induction 1 as [|s segs Hs _ IH]; [done|]. simpl. rewrite IH.
  unfold kept, has_type. destruct (decide (type s = BODY)) as [Hb|Hb].
  - by rewrite (Hs Hb), andb_false_r.
  - by rewrite bool_decide_eq_false_2.
Qed.

(** On a list whose BODY segments all carry a label the organizer only
    reorders. *)
Lemma organize_perm_labelled (segs : list Segment) :
  Forall (fun s => type s = BODY -> truthy_label (label s) = true) segs ->
  Permutation (_organize_segments_by_label segs) segs.
Proof.
  intros H. rewrite organize_eq_organized_order, (filter_kept_all _ H).
  apply organized_order_perm.
Qed.

Lemma organized_order_zones (segs : list Segment) :
  Forall (fun s => type s = PREFIX) (List.filter (has_type PREFIX) segs)
  /\ Forall (fun s => type s = BODY) (grouped_order label (List.filter (has_type BODY) segs))
  /\ Forall (fun s => type s = SUFFIX) (List.filter (has_type SUFFIX) segs).
Proof.
  assert (Hf : forall t l, Forall (fun s => type s = t) (List.filter (has_type t) l)).
  { intros t l. apply List.Forall_forall. intros s Hs.
    apply filter_In in Hs as [_ Hs]. by apply has_type_true. }
  split; [apply Hf | split; [|apply Hf]].
  apply List.Forall_forall. intros s Hs.
  apply (Permutation_in _ (grouped_order_perm label _)) in Hs.
  apply filter_In in Hs as [_ Hs]. by apply has_type_true.
Qed.

(** ** The builder, claim by claim *)

(** C1, at the failing input: the builder emits the interval (5, 3) of
    [reversed_interval_document] unchanged. The emitted interval breaks
    [end > start], which the repository's response validation asserts of
    every interval of every segment, and the segment does not come out with
    an empty interval list. *)
Theorem interval_check_missing :
  _build_segments_from_langextract_result reversed_interval_document
  = [mkSegment BODY (Some "body") "Lungs clear." [mkInterval 5 3] None]
  /\ ~ Forall (fun seg => Forall interval_wf (intervals seg))
         (_build_segments_from_langextract_result reversed_interval_document)
  /\ ~ Forall (fun seg => intervals seg = [])
         (_build_segments_from_langextract_result reversed_interval_document).
Proof.
  assert (Hrun : _build_segments_from_langextract_result reversed_interval_document
                 = [mkSegment BODY (Some "body") "Lungs clear." [mkInterval 5 3] None])
    by (vm_compute; reflexivity).
  rewrite Hrun. split; [done|]. split.
  - intros H. apply Forall_cons in H as [H _]. simpl in H.
    apply Forall_cons in H as [[H _] _]. simpl in H. lia.
  - intros H. apply Forall_cons in H as [H _]. discriminate H.
Qed.

(** What the builder does with the endpoints: the interval lists of the
    segments it emits are, in order, the [expected_intervals] of the
    extractions with a mapped class: at most one interval each, none when the
    interval is missing or an endpoint is absent or non-numeric, and
    otherwise the two integers as given. *)
Lemma interval_resolution (result : AnnotatedDocument) :
  List.map intervals (_build_segments_from_langextract_result result)
  = List.map expected_intervals (List.filter is_mapped (extractions result))
  /\ Forall (fun e => (length (expected_intervals e) <= 1)%nat) (extractions result).
Proof.
  split.
  - rewrite build_segments_flat_map.
    induction (extractions result) as [|e es IH]; [done|].
    simpl. rewrite List.map_app, IH, segments_of_extraction_spec.
    unfold is_mapped, expected_intervals.
    rewrite resolved_intervals_spec.
    destruct (_map_section (extraction_class e)); done.
  - apply List.Forall_forall. intros e _.
    unfold expected_intervals. rewrite <- resolved_intervals_spec.
    apply resolved_intervals_length.
Qed.


Lemma truthy_nonempty (s : string) : PyStr.truthy s = true <-> s <> "".
Proof. destruct s; simpl; split; congruence. Qed.

Lemma determine_section_label_spec attrs t :
  _determine_section_label attrs t = expected_label attrs t.
Proof.
  unfold _determine_section_label, expected_label, usable_attributes,
    SECTION_ATTRIBUTE_KEY.
  destruct attrs as [d|]; simpl; [|done].
  destruct (decide (d = ∅)) as [->|_].
  - by rewrite lookup_empty.
  - destruct (d !! "section") as [s|]; [|done]. by destruct s.
Qed.

Lemma display_name_values :
  display_name PREFIX = "prefix" /\ display_name BODY = "body"
  /\ display_name SUFFIX = "suffix".
Proof. by vm_compute. Qed.

Lemma expected_label_nonempty attrs t : expected_label attrs t <> "".
Proof.
  assert (Hd : display_name t <> "") by (by destruct t; vm_compute).
  unfold expected_label.
  destruct (attrs ≫= _) as [s|]; [|done]. by destruct (decide (s = "")).
Qed.

Lemma build_labels_truthy (result : AnnotatedDocument) :
  Forall (fun seg => truthy_label (label seg) = true)
         (_build_segments_from_langextract_result result).
Proof.
  rewrite build_segments_flat_map. apply List.Forall_forall. intros seg Hin.
  apply in_flat_map in Hin as (e & _ & Hin).
  rewrite segments_of_extraction_spec in Hin.
  destruct (_map_section (extraction_class e)) as [t|]; [|done].
  destruct Hin as [<-|[]]. simpl.
  rewrite determine_section_label_spec. apply truthy_nonempty, expected_label_nonempty.
Qed.

(** C10: every segment the builder produces carries a label that is a
    non-empty string, namely the non-empty [section] attribute of its
    extraction when there is one and else the display name of its zone
    (one of "prefix", "body", "suffix"); the organizer therefore returns a
    permutation of the builder's output, losing none of it. *)
Theorem builder_labels_nonempty (result : AnnotatedDocument) :
  List.map label (_build_segments_from_langextract_result result)
  = List.flat_map
      (fun e => match _map_section (extraction_class e) with
                | Some t => [Some (expected_label (attributes e) t)]
                | None => []
                end)
      (extractions result)
  /\ Forall (fun seg => exists l, label seg = Some l /\ l <> "")
            (_build_segments_from_langextract_result result)
  /\ (display_name PREFIX = "prefix" /\ display_name BODY = "body"
      /\ display_name SUFFIX = "suffix")
  /\ Permutation
       (_organize_segments_by_label (_build_segments_from_langextract_result result))
       (_build_segments_from_langextract_result result).
Proof.
  split; [|split; [|split; [apply display_name_values|]]].
  - rewrite build_segments_flat_map.
    induction (extractions result) as [|e es IH]; [done|].
    simpl. rewrite List.map_app, IH, segments_of_extraction_spec.
    destruct (_map_section (extraction_class e)); [|done].
    simpl. by rewrite determine_section_label_spec.
  - eapply List.Forall_impl; [|apply build_labels_truthy].
    intros seg Ht. cbv beta in Ht. destruct (label seg) as [l|]; [|discriminate Ht].
    exists l. split; [done|]. by apply truthy_nonempty.
  - apply organize_perm_labelled.
    eapply List.Forall_impl; [|apply build_labels_truthy]. auto.
Qed.

(** ** The organizer, claim by claim *)

(** C3, as stated, fails: the organizer drops a BODY segment that has no
    label, so its output is not a permutation of its input. *)
Lemma organizer_permutation_counterexample :
  _organize_segments_by_label unlabelled_body = []
  /\ ~ Permutation (_organize_segments_by_label unlabelled_body) unlabelled_body.
Proof.
  assert (Hrun : _organize_segments_by_label unlabelled_body = [])
    by (vm_compute; reflexivity).
  rewrite Hrun. split; [done|]. intros H. by apply Permutation_nil in H.
Qed.

(** C3, amended: the organizer returns a permutation of the input without
    its BODY segments of absent or empty label, which it leaves out; no
    segment is altered or duplicated. In the output the PREFIX segments come
    first, then the BODY segments, then the SUFFIX segments. When every BODY
    segment carries a non-empty label nothing is left out. *)
Theorem organizer_permutation (segs : list Segment) :
  Permutation (_organize_segments_by_label segs) (List.filter kept segs)
  /\ (exists p b s,
        _organize_segments_by_label segs = p ++ b ++ s
        /\ Forall (fun x => type x = PREFIX) p
        /\ Forall (fun x => type x = BODY) b
        /\ Forall (fun x => type x = SUFFIX) s)
  /\ (Forall (fun x => type x = BODY -> truthy_label (label x) = true) segs ->
      Permutation (_organize_segments_by_label segs) segs).
Proof.
  split; [|split].
  - rewrite organize_eq_organized_order. apply organized_order_perm.
  - rewrite organize_eq_organized_order. unfold organized_order.
    destruct (organized_order_zones (List.filter kept segs)) as (Hp & Hb & Hs).
    eauto 10.
  - apply organize_perm_labelled.
Qed.

Lemma organizer_permutation_witness :
  Permutation (_organize_segments_by_label interleaved_report) interleaved_report
  /\ _organize_segments_by_label interleaved_report
     = [mkSegment PREFIX (Some "prefix") "Chest radiograph." [] None;
        mkSegment BODY (Some "Lungs") "Lungs are clear." [] None;
        mkSegment BODY (Some "Lungs") "No effusion." [] None;
        mkSegment BODY (Some "Heart") "Heart size is normal." [] None;
        mkSegment SUFFIX (Some "suffix") "No acute disease." [] None].
Proof.
  split; [|vm_compute; reflexivity].
  destruct (organizer_permutation interleaved_report) as (_ & _ & Hlabelled).
  apply Hlabelled.
  repeat (apply List.Forall_cons; [intros _; reflexivity|]). apply List.Forall_nil.
Defined.

(** C4, as stated, fails: regrouping the BODY segments by label keeps the
    segment whose label is empty, in a group of its own; the organizer
    leaves it out. *)
Lemma organizer_ordering_counterexample :
  _organize_segments_by_label partly_labelled_body
  = [mkSegment BODY (Some "Lungs") "Lungs are clear." [] None]
  /\ organized_order partly_labelled_body = partly_labelled_body
  /\ _organize_segments_by_label partly_labelled_body
     <> organized_order partly_labelled_body.
Proof.
  assert (Hrun : _organize_segments_by_label partly_labelled_body
                 = [mkSegment BODY (Some "Lungs") "Lungs are clear." [] None])
    by (vm_compute; reflexivity).
  assert (Hspec : organized_order partly_labelled_body = partly_labelled_body)
    by (vm_compute; reflexivity).
  rewrite Hrun, Hspec. split; [done|]. split; [done|]. discriminate.
Qed.

(** C4, amended: the organizer outputs the PREFIX segments in their
    original order, then the BODY segments that carry a non-empty label,
    regrouped by label (groups in the order in which the labels first
    appear among them, original order inside a group), then the SUFFIX
    segments in their original order; BODY segments without a label are
    left out. *)
Theorem organizer_ordering (segs : list Segment) :
  _organize_segments_by_label segs
  = List.filter (has_type PREFIX) segs
      ++ grouped_order label (labelled (List.filter (has_type BODY) segs))
      ++ List.filter (has_type SUFFIX) segs.
Proof.
  rewrite organize_eq_organized_order. unfold organized_order.
  by rewrite (filter_kept_type PREFIX), (filter_kept_type SUFFIX), filter_kept_body.
Qed.

(** ** The cache store, claim by claim *)

Section CacheFacts.
Context {Payload : Type} {encodable : JsonEncodable Payload}
        (md5_hexdigest : string -> string).

Lemma startswith_app (p s : string) : PyStr.startswith (p +:+ s) p = true.
Proof.
  induction p as [|a p IH]; simpl; [done|].
  by rewrite Ascii.eqb_refl.
Qed.

(** C6: the key is a function of the pair [(text, sample_id)] alone, so
    equal pairs give equal keys. For an id that is given (not empty) the
    key is the id itself when it already starts with [sample_], and
    [sample_] followed by the id otherwise; either way it starts with
    [sample_]. Without an id ([None], or the empty string, which the code
    takes for no id) the key is [custom_] followed by the hash of the text,
    so equal texts give one key. *)
Theorem cache_key_derivation (text : string) (sample_id : option string) :
  (forall text' sample_id',
      text' = text -> sample_id' = sample_id ->
      _get_cache_key md5_hexdigest text' sample_id'
      = _get_cache_key md5_hexdigest text sample_id)
  /\ (forall id,
        sample_id = Some id -> id <> "" ->
        _get_cache_key md5_hexdigest text sample_id
        = (if PyStr.startswith id "sample_" then id else "sample_" +:+ id)
        /\ PyStr.startswith (_get_cache_key md5_hexdigest text sample_id) "sample_"
           = true)
  /\ (sample_id = None \/ sample_id = Some "" ->
      _get_cache_key md5_hexdigest text sample_id
      = "custom_" +:+ md5_hexdigest text).
Proof.
  split; [|split].
  - by intros ? ? -> ->.
  - intros id -> Hid. unfold _get_cache_key.
    apply truthy_nonempty in Hid. rewrite Hid.
    destruct (PyStr.startswith id "sample_") eqn:Hp; [done|].
    split; [done|]. apply (startswith_app "sample_").
  - by intros [-> | ->].
Qed.

(** [remove_sample] on an id that has no entry under [sample_<id>]. *)
Lemma remove_sample_absent (sample_id : string) (self : CacheManager Payload) :
  _cache_data self !! ("sample_" +:+ sample_id) = None ->
  remove_sample sample_id self = (false, self).
Proof. intros H. unfold remove_sample. by rewrite H. Qed.

(** [remove_sample] on an id that has an entry under [sample_<id>]: the
    entry goes, the file is rewritten when it can be, and a lookup of
    that key misses afterwards. *)
Lemma remove_sample_present (sample_id : string) (self : CacheManager Payload) :
  is_Some (_cache_data self !! ("sample_" +:+ sample_id)) ->
  exists self',
    remove_sample sample_id self = (true, self')
    /\ _cache_data self' = delete ("sample_" +:+ sample_id) (_cache_data self)
    /\ _cache_data self' !! ("sample_" +:+ sample_id) = None
    /\ (writable self = true -> cache_file self' = json_dump (_cache_data self')).
Proof.
  intros [p Hp]. unfold remove_sample. rewrite Hp. eexists. split; [done|].
  unfold _save_cache. simpl. destruct (writable self); simpl;
    (split; [done|]); (split; [apply lookup_delete_eq|]); done.
Qed.

(** For an id that does not begin with [sample_], the key [remove_sample]
    deletes is the key [cache_result] and [get_cached_result] use. *)
Lemma remove_sample_after_cache_result
    (text : string) (p : Payload) (sample_id : string) (self : CacheManager Payload) :
  sample_id <> "" -> PyStr.startswith sample_id "sample_" = false ->
  exists self',
    remove_sample sample_id (cache_result md5_hexdigest text p (Some sample_id) self)
    = (true, self')
    /\ get_cached_result md5_hexdigest text (Some sample_id) self' = None.
Proof.
  intros Hid Hp.
  assert (Hkey : _get_cache_key md5_hexdigest text (Some sample_id)
                 = "sample_" +:+ sample_id).
  { unfold _get_cache_key. apply truthy_nonempty in Hid. by rewrite Hid, Hp. }
  destruct (remove_sample_present sample_id
              (cache_result md5_hexdigest text p (Some sample_id) self))
    as (self' & Hrm & _ & Hnone & _).
  { unfold cache_result, _save_cache. rewrite Hkey.
    destruct (writable _); simpl; rewrite lookup_insert_eq; eauto. }
  exists self'. split; [done|].
  unfold get_cached_result. by rewrite Hkey.
Qed.

(** C5, at the failing input: a payload cached under the id [sample_1]
    is stored at the key [sample_1], while [remove_sample] looks for
    [sample_sample_1]. It answers [False], changes nothing, and the
    payload is still served. *)
Theorem remove_sample_misses_prefixed_id (text : string) (p : Payload) :
  get_cached_result md5_hexdigest text (Some "sample_1")
    (cache_result md5_hexdigest text p (Some "sample_1") (mkCache ∅ FileMissing true))
  = Some p
  /\ remove_sample "sample_1"
       (cache_result md5_hexdigest text p (Some "sample_1") (mkCache ∅ FileMissing true))
     = (false, cache_result md5_hexdigest text p (Some "sample_1") (mkCache ∅ FileMissing true))
  /\ get_cached_result md5_hexdigest text (Some "sample_1")
       (snd (remove_sample "sample_1"
               (cache_result md5_hexdigest text p (Some "sample_1")
                             (mkCache ∅ FileMissing true))))
     = Some p.
Proof.
  assert (Hget : get_cached_result md5_hexdigest text (Some "sample_1")
                   (cache_result md5_hexdigest text p (Some "sample_1")
                                 (mkCache ∅ FileMissing true)) = Some p).
  { unfold get_cached_result, cache_result. simpl. apply lookup_insert_eq. }
  assert (Hrm : remove_sample "sample_1"
                  (cache_result md5_hexdigest text p (Some "sample_1")
                                (mkCache ∅ FileMissing true))
                = (false, cache_result md5_hexdigest text p (Some "sample_1")
                                       (mkCache ∅ FileMissing true))).
  { apply remove_sample_absent. unfold cache_result. simpl.
    rewrite lookup_insert_ne by discriminate. apply lookup_empty. }
  rewrite Hrm. cbn [snd]. split; [exact Hget | split; [reflexivity | exact Hget]].
Qed.

End CacheFacts.

Lemma cache_key_derivation_witness :
  _get_cache_key example_digest "report" (Some "sample_7") = "sample_7"
  /\ _get_cache_key example_digest "report" (Some "7") = "sample_7"
  /\ _get_cache_key example_digest "report" None = "custom_REPORT".
Proof.
  split; [|split].
  - destruct (cache_key_derivation example_digest "report" (Some "sample_7"))
      as (_ & Hgiven & _).
    destruct (Hgiven "sample_7") as [Hkey _]; [reflexivity | discriminate | exact Hkey].
  - destruct (cache_key_derivation example_digest "report" (Some "7"))
      as (_ & Hgiven & _).
    destruct (Hgiven "7") as [Hkey _]; [reflexivity | discriminate | exact Hkey].
  - destruct (cache_key_derivation example_digest "report" None)
      as (_ & _ & Habsent).
    apply Habsent. left. reflexivity.
Defined.

(** ** [predict], claim by claim *)

Lemma lstrip_all_space (s : string) :
  PyStr.all_space s = true -> PyStr.lstrip s = "".
Proof.
  induction s as [|a s IH]; simpl; [done|].
  intros [Ha Hs]%andb_prop. rewrite Ha. by apply IH.
Qed.

Lemma strip_all_space (s : string) :
  PyStr.all_space s = true -> PyStr.strip s = "".
Proof. intros H. unfold PyStr.strip. by rewrite lstrip_all_space. Qed.

Lemma lstrip_not_all_space (s : string) :
  PyStr.all_space s = false ->
  exists a r, PyStr.lstrip s = String a r /\ PyStr.is_space a = false.
Proof.
  induction s as [|a s IH]; simpl; [done|].
  destruct (PyStr.is_space a) eqn:Ha; simpl; [apply IH | eauto].
Qed.

Lemma strip_not_all_space (s : string) :
  PyStr.all_space s = false -> PyStr.truthy (PyStr.strip s) = true.
Proof.
  intros (a & r & Hl & Ha)%lstrip_not_all_space.
  unfold PyStr.strip. rewrite Hl. simpl. rewrite Ha.
  by destruct (PyStr.rstrip r).
Qed.

(** C8: on a report text that is empty or all whitespace, [predict] raises
    [ValueError] to its caller and returns no payload; the structurer is
    left as it was, so neither the patches nor the extraction engine have
    run. The error payload (a message, no segments) is what [predict]
    returns when the text is not blank and the engine raises one of the
    exceptions [predict] catches. White space is what [str.strip] removes,
    the no-break space and the next-line control included. *)
Theorem predict_rejects_blank
    (lx_extract : string -> Z -> outcome AnnotatedDocument)
    (generate_markdown_prompt : string -> string)
    (report_text : string) (max_char_buffer : Z) (self : Structurer) :
  (PyStr.all_space report_text = true ->
     predict lx_extract generate_markdown_prompt report_text max_char_buffer self
     = (Raised (ValueError "Report text cannot be empty"), self)
     /\ forall response,
          fst (predict lx_extract generate_markdown_prompt report_text max_char_buffer self)
          <> Returned response)
  /\ (PyStr.all_space report_text = false ->
      forall e,
        lx_extract report_text max_char_buffer = Raised e ->
        caught_by_predict e = true ->
        predict lx_extract generate_markdown_prompt report_text max_char_buffer self
        = (Returned (mkResponse [] JsonEmpty ("Error processing report: " +:+ exn_str e) ""),
           mkStructurer true (engine_calls self ++ [(report_text, max_char_buffer)]))).
Proof.
  split.
  - intros Hblank. unfold predict. rewrite (strip_all_space _ Hblank). simpl.
    split; [done | discriminate].
  - intros Htext e He Hcaught. unfold predict.
    rewrite (strip_not_all_space _ Htext). simpl. by rewrite He, Hcaught.
Qed.

Lemma predict_rejects_blank_witness :
  predict failing_engine (fun t => t) blank_report 2000 (mkStructurer false [])
  = (Raised (ValueError "Report text cannot be empty"), mkStructurer false [])
  /\ predict failing_engine (fun t => t) no_break_report 2000 (mkStructurer false [])
     = (Raised (ValueError "Report text cannot be empty"), mkStructurer false [])
  /\ predict failing_engine (fun t => t) "EXAMINATION: Test" 2000 (mkStructurer false [])
     = (Returned (mkResponse [] JsonEmpty
                             "Error processing report: API key must be provided" ""),
        mkStructurer true [("EXAMINATION: Test", 2000%Z)]).
Proof.
  split; [|split].
  - destruct (predict_rejects_blank failing_engine (fun t => t) blank_report 2000
                (mkStructurer false [])) as [Hblank _].
    destruct Hblank as [Hraise _]; [vm_compute; reflexivity | exact Hraise].
  - destruct (predict_rejects_blank failing_engine (fun t => t) no_break_report 2000
                (mkStructurer false [])) as [Hblank _].
    destruct Hblank as [Hraise _]; [vm_compute; reflexivity | exact Hraise].
  - destruct (predict_rejects_blank failing_engine (fun t => t) "EXAMINATION: Test" 2000
                (mkStructurer false [])) as [_ Hfail].
    apply (Hfail eq_refl (ValueError "API key must be provided")); reflexivity.
Defined.

(** ** Grouping of contents *)

Lemma elem_of_first_occurrences {K} `{EqDecision K} (k : K) (l : list K) :
  k ∈ first_occurrences l <-> k ∈ l.
Proof. rewrite !list_elem_of_In. apply in_first_occurrences. Qed.

Section OrderedDict.
Context (f : group_key -> list string).

Lemma od_has_table (k : group_key) (ks : list group_key) :
  List.existsb (fun kv => bool_decide (fst kv = k)) (List.map (fun k' => (k', f k')) ks)
  = bool_decide (k ∈ ks).
Proof.
  induction ks as [|a ks IH]; simpl.
  - done.
  - rewrite IH. destruct (decide (a = k)) as [->|Hne].
    + rewrite (bool_decide_eq_true_2 (k = k)) by done.
      by rewrite (bool_decide_eq_true_2 (k ∈ k :: ks)) by (by left).
    + rewrite (bool_decide_eq_false_2 (a = k)) by done. simpl.
      apply bool_decide_ext. rewrite elem_of_cons.
      split; [by right | by intros [?|?]].
Qed.

Lemma od_get_table (k : group_key) (ks : list group_key) :
  k ∈ ks -> od_get k (List.map (fun k' => (k', f k')) ks) = f k.
Proof.
  unfold od_get. induction ks as [|a ks IH]; simpl.
  - by intros ?%elem_of_nil.
  - intros Hin. destruct (decide (a = k)) as [->|Hne].
    + by rewrite bool_decide_eq_true_2.
    + rewrite bool_decide_eq_false_2 by done. apply IH.
      by apply elem_of_cons in Hin as [?|?].
Qed.

Lemma od_append_table (k : group_key) (x : string) (ks : list group_key) :
  od_append k x (List.map (fun k' => (k', f k')) ks)
  = List.map (fun k' => (k', if decide (k' = k) then f k' ++ [x] else f k')) ks.
Proof.
  unfold od_append. rewrite List.map_map. apply List.map_ext. intros a. simpl.
  destruct (decide (a = k)).
  - by rewrite bool_decide_eq_true_2.
  - by rewrite bool_decide_eq_false_2.
Qed.

End OrderedDict.

Lemma od_get_snoc_fresh (k : group_key) (grouped : grouped_dict) (v : list string) :
  Forall (fun kv => fst kv <> k) grouped -> od_get k (grouped ++ [(k, v)]) = v.
Proof.
  unfold od_get. induction 1 as [|kv grouped Hkv _ IH]; simpl.
  - by rewrite bool_decide_eq_true_2.
  - by rewrite bool_decide_eq_false_2.
Qed.

Lemma str_in_spec (x : string) (l : list string) : str_in x l = bool_decide (x ∈ l).
Proof.
  unfold str_in. induction l as [|a l IH]; simpl.
  - done.
  - rewrite IH. unfold PyStr.eqb. destruct (decide (x = a)) as [->|Hne].
    + rewrite (bool_decide_eq_true_2 (a = a)) by done.
      by rewrite (bool_decide_eq_true_2 (a ∈ a :: l)) by (by left).
    + rewrite (bool_decide_eq_false_2 (x = a)) by done. simpl.
      apply bool_decide_ext. rewrite elem_of_cons.
      split; [by right | by intros [?|?]].
Qed.

Lemma group_step_deduplicated (xs : list Segment) (x : Segment) :
  PyStr.strip (content x) = content x ->
  group_step (deduplicated_groups xs) x = deduplicated_groups (xs ++ [x]).
Proof.
  intros Hstrip. unfold group_step, deduplicated_groups, od_setdefault.
  fold (segment_key x). set (k := segment_key x).
  rewrite od_has_table, Hstrip.
  rewrite !List.map_app. simpl. fold k. rewrite first_occurrences_snoc.
  destruct (decide (k ∈ List.map segment_key xs)) as [Hin|Hnin].
  - rewrite bool_decide_eq_true_2 by (by apply elem_of_first_occurrences).
    rewrite od_get_table by (by apply elem_of_first_occurrences).
    rewrite str_in_spec, app_nil_r.
    destruct (decide (content x
                        ∈ first_occurrences (List.map content (group_of segment_key k xs))))
      as [Hc|Hc].
    + rewrite bool_decide_eq_true_2 by done. simpl.
      apply List.map_ext. intros k'. f_equal.
      rewrite group_of_snoc. fold k.
      destruct (decide (k = k')) as [<-|]; [|by rewrite app_nil_r].
      rewrite List.map_app. simpl. rewrite first_occurrences_snoc.
      rewrite decide_True; [by rewrite app_nil_r|].
      by apply elem_of_first_occurrences.
    + rewrite bool_decide_eq_false_2 by done. simpl.
      rewrite od_append_table. apply List.map_ext. intros k'. f_equal.
      rewrite group_of_snoc. fold k.
      destruct (decide (k' = k)) as [->|Hne].
      * rewrite decide_True by done. rewrite List.map_app. simpl.
        rewrite first_occurrences_snoc. rewrite decide_False; [done|].
        by rewrite elem_of_first_occurrences in Hc.
      * rewrite decide_False by congruence. by rewrite app_nil_r.
  - rewrite bool_decide_eq_false_2 by (by rewrite elem_of_first_occurrences).
    assert (Hget : od_get k
              (List.map
                 (fun k0 =>
                    (k0, first_occurrences (List.map content (group_of segment_key k0 xs))))
                 (first_occurrences (List.map segment_key xs)) ++ [(k, [])]) = []).
    { apply od_get_snoc_fresh. apply List.Forall_forall. intros kv Hkv.
      apply in_map_iff in Hkv as (k0 & <- & Hk0). simpl. intros ->.
      apply Hnin, list_elem_of_In. by apply in_first_occurrences. }
    rewrite Hget. simpl. unfold od_append. rewrite !List.map_app, List.map_map. simpl.
    rewrite bool_decide_eq_true_2 by done.
    f_equal.
    + apply map_ext_in. intros k' Hk'. simpl.
      assert (k' <> k).
      { intros ->. apply Hnin, list_elem_of_In. by apply in_first_occurrences. }
      rewrite bool_decide_eq_false_2 by done. f_equal.
      rewrite group_of_snoc. fold k. rewrite decide_False by congruence.
      by rewrite app_nil_r.
    + rewrite group_of_snoc. fold k. rewrite decide_True by done.
      rewrite group_of_absent; [done|]. by rewrite <- list_elem_of_In.
Qed.

(** Where every content is free of surrounding whitespace, the grouping
    deduplicates: each group holds its distinct contents, first occurrence
    first. *)
Lemma group_segments_deduplicated (segs : list Segment) :
  Forall (fun s => PyStr.strip (content s) = content s) segs ->
  _group_segments_by_type_and_label segs = deduplicated_groups segs.
Proof.
  unfold _group_segments_by_type_and_label.
  induction segs as [|x xs IH] using rev_ind; [done|].
  intros [Hxs Hx]%Forall_app. apply Forall_cons in Hx as [Hx _].
  rewrite List.fold_left_app. simpl. rewrite IH by done.
  by apply group_step_deduplicated.
Qed.

(** ** The renderer, claim by claim *)

(** C2, at the failing input: the two segments of [repeated_sentence] have
    the same zone, label and content, yet the group holds the content twice
    and the rendered text prints it twice. The membership test looks for the
    content as extracted among the stored contents, which are stripped. *)
Theorem dedup_misses_padded_content :
  _build_segments_from_langextract_result repeated_sentence
  = [mkSegment BODY (Some "Lungs") "Lungs are clear. " [] None;
     mkSegment BODY (Some "Lungs") "Lungs are clear. " [] None]
  /\ _group_segments_by_type_and_label
       (_organize_segments_by_label
          (_build_segments_from_langextract_result repeated_sentence))
     = [((BODY, Some "Lungs"), ["Lungs are clear."; "Lungs are clear."])]
  /\ _format_segments_to_text
       (_organize_segments_by_label
          (_build_segments_from_langextract_result repeated_sentence))
     = "FINDINGS:" +:+ NL +:+ NL +:+ "Lungs: Lungs are clear. Lungs are clear.".
Proof. repeat split; vm_compute; reflexivity. Qed.

Lemma startswith_drop (s p : string) :
  PyStr.startswith s p = true -> s = p +:+ PyStr.drop (String.length p) s.
Proof.
  revert s. induction p as [|b p IH]; intros s; simpl; [done|].
  destruct s as [|a s]; [discriminate|].
  destruct (Ascii.eqb a b) eqn:Hab; [|discriminate].
  apply Ascii.eqb_eq in Hab as ->. intros H.
  change (String b s = String b (p +:+ PyStr.drop (String.length p) s)).
  f_equal. by apply IH.
Qed.



Lemma label_lower_is_spec (l : option string) (s : string) :
  s <> "" -> label_lower_is l s = bool_decide (PyStr.lower <$> l = Some s).
Proof.
  intros Hs. destruct l as [x|]; simpl; [|done].
  destruct x as [|a x]; simpl.
  - rewrite bool_decide_eq_false_2; [done|]. intros [= H]. done.
  - unfold PyStr.eqb. apply bool_decide_ext. split; congruence.
Qed.

Lemma render_prefix_item_spec (item : group_key * list string) :
  render_prefix_item item
  = if is_prefix_item item then prefix_block (snd (fst item)) (snd item) else [].
Proof.
  destruct item as [[stype label] contents]. unfold render_prefix_item, is_prefix_item.
  simpl. destruct (bool_decide (stype = PREFIX)); simpl; [|done].
  unfold prefix_block. rewrite label_lower_is_spec by discriminate.
  destruct (bool_decide _); [done|]. by destruct (_ && _).
Qed.

Lemma fold_left_render_prefix (grouped : grouped_dict) (parts : list string) :
  List.fold_left (fun parts item => parts ++ render_prefix_item item) grouped parts
  = parts ++ List.flat_map (fun item => prefix_block (snd (fst item)) (snd item))
                           (List.filter is_prefix_item grouped).
Proof.
  rewrite fold_left_extend. f_equal.
  induction grouped as [|item grouped IH]; simpl; [done|].
  rewrite render_prefix_item_spec, IH. by destruct (is_prefix_item item).
Qed.

Lemma fold_left_plain_prefix (grouped : grouped_dict) (plain : list string) :
  List.fold_left
    (fun plain item =>
       if bool_decide (fst (fst item) = PREFIX) then plain ++ snd item else plain)
    grouped plain
  = plain ++ List.flat_map snd (List.filter is_prefix_item grouped).
Proof.
  revert plain. induction grouped as [|item grouped IH]; intros plain; simpl.
  - by rewrite app_nil_r.
  - rewrite IH. unfold is_prefix_item.
    repeat case_bool_decide; simpl; try done. by rewrite <- app_assoc.
Qed.





(** * Further properties *)

(** ** Strings *)

Lemma lower_char_idem (a : ascii) :
  PyStr.lower_char (PyStr.lower_char a) = PyStr.lower_char a.
Proof. destruct a as [[] [] [] [] [] [] [] []]; reflexivity. Qed.

Lemma lower_idem (s : string) : PyStr.lower (PyStr.lower s) = PyStr.lower s.
Proof.
  induction s as [|a s IH]; [done|].
  unfold PyStr.lower in *. simpl. by rewrite lower_char_idem, IH.
Qed.

Lemma lstrip_first_char (s : string) (a : ascii) :
  first_char (PyStr.lstrip s) = Some a -> PyStr.is_space a = false.
Proof.
  induction s as [|b s IH]; simpl; [done|].
  destruct (PyStr.is_space b) eqn:Hb; [done|]. simpl. by intros [= <-].
Qed.

Lemma lstrip_fixed (s : string) :
  (forall a, first_char s = Some a -> PyStr.is_space a = false) -> PyStr.lstrip s = s.
Proof.
  destruct s as [|a s]; [done|]. intros H. simpl. by rewrite (H a eq_refl).
Qed.

Lemma rstrip_idem (s : string) : PyStr.rstrip (PyStr.rstrip s) = PyStr.rstrip s.
Proof.
  induction s as [|a s IH]; [done|]. simpl.
  destruct (PyStr.rstrip s) as [|b r] eqn:Hr.
  - destruct (PyStr.is_space a) eqn:Ha; [done|]. simpl. by rewrite Ha.
  - change (PyStr.rstrip (String a (String b r)))
      with (match PyStr.rstrip (String b r) with
            | EmptyString => if PyStr.is_space a then EmptyString else String a EmptyString
            | r' => String a r'
            end).
    by rewrite IH.
Qed.

Lemma rstrip_last_char (s : string) (a : ascii) :
  last_char (PyStr.rstrip s) = Some a -> PyStr.is_space a = false.
Proof.
  induction s as [|b s IH]; simpl; [done|].
  destruct (PyStr.rstrip s) as [|c r] eqn:Hr.
  - destruct (PyStr.is_space b) eqn:Hb; [done|]. simpl. by intros [= <-].
  - exact IH.
Qed.

Lemma rstrip_first_char (s : string) (a : ascii) :
  first_char (PyStr.rstrip s) = Some a -> first_char s = Some a.
Proof.
  destruct s as [|b s]; simpl; [done|].
  destruct (PyStr.rstrip s); [destruct (PyStr.is_space b)|]; simpl; done.
Qed.

Lemma strip_first_char (s : string) (a : ascii) :
  first_char (PyStr.strip s) = Some a -> PyStr.is_space a = false.
Proof. intros H%rstrip_first_char. by apply lstrip_first_char in H. Qed.

Lemma strip_idem (s : string) : PyStr.strip (PyStr.strip s) = PyStr.strip s.
Proof.
  unfold PyStr.strip at 1.
  rewrite (lstrip_fixed (PyStr.strip s)) by apply strip_first_char.
  apply rstrip_idem.
Qed.

Lemma lstrip_length (s : string) : String.length (PyStr.lstrip s) <= String.length s.
Proof.
  induction s as [|a s IH]; simpl; [lia|]. destruct (PyStr.is_space a); simpl; lia.
Qed.

Lemma rstrip_length (s : string) : String.length (PyStr.rstrip s) <= String.length s.
Proof.
  induction s as [|a s IH]; simpl; [lia|].
  destruct (PyStr.rstrip s); [destruct (PyStr.is_space a)|]; simpl in *; lia.
Qed.

Lemma drop_length (n : nat) (s : string) :
  String.length (PyStr.drop n s) <= String.length s.
Proof.
  revert s. induction n as [|n IH]; intros s; simpl; [lia|].
  destruct s as [|a s]; simpl; [lia|]. specialize (IH s). lia.
Qed.

Lemma is_space_lower_char (a : ascii) :
  PyStr.is_space (PyStr.lower_char a) = PyStr.is_space a.
Proof. destruct a as [[] [] [] [] [] [] [] []]; reflexivity. Qed.

Lemma lower_lstrip (s : string) :
  PyStr.lower (PyStr.lstrip s) = PyStr.lstrip (PyStr.lower s).
Proof.
  induction s as [|a s IH]; [done|].
  change (PyStr.lower (String a s)) with (String (PyStr.lower_char a) (PyStr.lower s)).
  simpl. rewrite is_space_lower_char. by destruct (PyStr.is_space a).
Qed.

Lemma lower_rstrip (s : string) :
  PyStr.lower (PyStr.rstrip s) = PyStr.rstrip (PyStr.lower s).
Proof.
  induction s as [|a s IH]; [done|].
  change (PyStr.lower (String a s)) with (String (PyStr.lower_char a) (PyStr.lower s)).
  simpl. rewrite <- IH, is_space_lower_char.
  destruct (PyStr.rstrip s); [by destruct (PyStr.is_space a) | done].
Qed.

Lemma lower_strip (s : string) :
  PyStr.lower (PyStr.strip s) = PyStr.strip (PyStr.lower s).
Proof. unfold PyStr.strip. by rewrite lower_rstrip, lower_lstrip. Qed.

(** ** Section mapper, significance, builder *)

Lemma lower_capitals (s : string) : PyStr.lower (capitals s) = PyStr.lower s.
Proof.
  induction s as [|a s IH]; [done|].
  unfold PyStr.lower, capitals in *. cbn [PyStr.map_chars]. f_equal; [|exact IH].
  destruct a as [[] [] [] [] [] [] [] []]; reflexivity.
Qed.

Lemma map_section_normal_form (s : string) :
  PyStr.strip (PyStr.lower (PyStr.strip (PyStr.lower s))) = PyStr.strip (PyStr.lower s).
Proof. by rewrite lower_strip, lower_idem, strip_idem. Qed.

(** X1: The section mapper knows exactly seven classes, the four
    of its own table and the three values of the zone enum, each with the
    zone the table [section_table] gives. Its answer is the same for the
    class with the white space around it removed, for the class in lower
    case, and for the class with its letters a to z in capitals. *)
Theorem map_section_table (extraction_class : string) :
  (forall t, _map_section extraction_class = Some t
             <-> In (PyStr.strip (PyStr.lower extraction_class), t) section_table)
  /\ _map_section (PyStr.strip extraction_class) = _map_section extraction_class
  /\ _map_section (PyStr.lower extraction_class) = _map_section extraction_class
  /\ _map_section (capitals extraction_class) = _map_section extraction_class.
Proof.
  split; [|split; [|split]].
  - intros t. unfold _map_section, pharma_map, section_table.
    generalize (PyStr.strip (PyStr.lower extraction_class)) as k. intros k.
    rewrite !lookup_insert, lookup_empty.
    unfold ReportSectionType_members, PyStr.eqb. simpl.
    repeat case_decide; repeat case_bool_decide; subst; simpl;
      split; intros Hx; simplify_eq;
      repeat (destruct Hx as [Hx|Hx]; simplify_eq); tauto.
  - unfold _map_section. by rewrite lower_strip, strip_idem.
  - unfold _map_section. by rewrite lower_idem.
  - unfold _map_section. by rewrite lower_capitals.
Qed.

(** X2: For attributes whose values are strings, as the
    signature of [_extract_clinical_significance] says, the clinical
    significance is the value of the attribute [clinical_significance] in
    lower case, and [None] when there are no attributes or the attribute is
    not among them; what is returned is already lower case. *)
Theorem clinical_significance_lowercase (attrs : option (gmap string string)) :
  _extract_clinical_significance attrs
  = PyStr.lower <$> (attrs ≫= (fun d => d !! "clinical_significance"))
  /\ forall s, _extract_clinical_significance attrs = Some s -> PyStr.lower s = s.
Proof.
  assert (Heq : _extract_clinical_significance attrs
                = PyStr.lower <$> (attrs ≫= (fun d => d !! "clinical_significance"))).
  { unfold _extract_clinical_significance, usable_attributes.
    destruct attrs as [d|]; simpl; [|done].
    destruct (decide (d = ∅)) as [->|_]; [by rewrite lookup_empty|].
    by destruct (d !! "clinical_significance"). }
  split; [done|]. rewrite Heq. intros s Hs.
  destruct (attrs ≫= _) as [raw|]; simplify_eq/=. apply lower_idem.
Qed.

(** X5: The builder keeps the order of the extractions: the
    zones, contents and significances of the segments it returns are those
    of the extractions with a known class, one per extraction and in their
    order, the content being the text of the extraction unchanged. *)
Theorem builder_keeps_order_and_content (result : AnnotatedDocument) :
  List.map (fun seg => (type seg, content seg, significance seg))
           (_build_segments_from_langextract_result result)
  = List.flat_map
      (fun e => match _map_section (extraction_class e) with
                | Some t => [(t, extraction_text e,
                              _extract_clinical_significance (attributes e))]
                | None => []
                end)
      (extractions result).
Proof.
  rewrite build_segments_flat_map.
  induction (extractions result) as [|e es IH]; [done|].
  simpl. rewrite List.map_app, IH, segments_of_extraction_spec.
  by destruct (_map_section (extraction_class e)).
Qed.

(** X6: The builder treats each extraction on its own: the
    segments of two lists of extractions put end to end are the segments of
    the first followed by those of the second, and an extraction of an
    unknown class can be taken out without changing the result. *)
Theorem builder_extraction_by_extraction (before after : list Extraction) :
  _build_segments_from_langextract_result (mkDocument (before ++ after))
  = _build_segments_from_langextract_result (mkDocument before)
      ++ _build_segments_from_langextract_result (mkDocument after)
  /\ forall e,
       is_mapped e = false ->
       _build_segments_from_langextract_result (mkDocument (before ++ e :: after))
       = _build_segments_from_langextract_result (mkDocument (before ++ after)).
Proof.
  rewrite !build_segments_flat_map. simpl. rewrite List.flat_map_app.
  split; [done|]. intros e He. rewrite !build_segments_flat_map. simpl.
  rewrite !List.flat_map_app. simpl. f_equal.
  rewrite segments_of_extraction_spec. unfold is_mapped in He.
  by destruct (_map_section (extraction_class e)).
Qed.

Lemma builder_extraction_by_extraction_witness :
  _build_segments_from_langextract_result
    (mkDocument (extractions repeated_sentence
                   ++ unmapped_extraction :: extractions reversed_interval_document))
  = _build_segments_from_langextract_result
      (mkDocument (extractions repeated_sentence
                     ++ extractions reversed_interval_document)).
Proof.
  destruct (builder_extraction_by_extraction
              (extractions repeated_sentence) (extractions reversed_interval_document))
    as [_ Hskip].
  apply Hskip. vm_compute. reflexivity.
Defined.

(** X4: [_create_segments_for_intervals] makes one segment
    per interval, and one segment without interval when there is none. The
    intervals of the segments, put together in order, are the intervals it
    was given, and every segment carries the zone, the label, the content
    and the significance it was given. *)
Theorem create_segments_partition_intervals
    (section_type : ReportSectionType) (section_label text_content : string)
    (interval_list : list FrontendIntervalDict) (significance_val : option string) :
  length (_create_segments_for_intervals section_type section_label text_content
                                         interval_list significance_val)
  = Nat.max 1 (length interval_list)
  /\ List.concat
       (List.map intervals
          (_create_segments_for_intervals section_type section_label text_content
                                          interval_list significance_val))
     = interval_list
  /\ Forall (fun seg =>
               (length (intervals seg) <= 1)%nat
               /\ type seg = section_type /\ label seg = Some section_label
               /\ content seg = text_content
               /\ significance seg = significance_val)
            (_create_segments_for_intervals section_type section_label text_content
                                            interval_list significance_val).
Proof.
  unfold _create_segments_for_intervals.
  destruct interval_list as [|iv ivs]; simpl.
  - split; [done|]. split; [done|]. repeat constructor.
  - split; [by rewrite length_map; lia|]. split.
    + f_equal. induction ivs as [|iv' ivs IH]; simpl; [done|]. by rewrite IH.
    + constructor; [simpl; repeat split; lia|].
      apply List.Forall_forall. intros seg Hin.
      apply in_map_iff in Hin as (iv' & <- & _). simpl. repeat split; lia.
Qed.

(** X3: [_extract_positions] gives both positions or
    neither: both exactly when the start of the first endpoint and the stop
    of the second are integers, and then it gives these two integers. For
    two slices that is the start of the first and the stop of the second,
    whatever their other ends are. *)
Theorem extract_positions_both_or_neither (start_obj end_obj : PyObj) :
  (_extract_positions start_obj end_obj = (None, None)
   \/ exists s e, _extract_positions start_obj end_obj = (Some s, Some e))
  /\ (forall s e,
        _extract_positions start_obj end_obj = (Some s, Some e)
        <-> endpoint_int (start_of start_obj) = Some s
            /\ endpoint_int (stop_of end_obj) = Some e)
  /\ (forall s e other_stop other_start,
        _extract_positions (PySlice (PyInt s) other_stop) (PySlice other_start (PyInt e))
        = (Some s, Some e)).
Proof.
  rewrite extract_positions_spec. split; [|split].
  - destruct (endpoint_int (start_of start_obj)), (endpoint_int (stop_of end_obj)); eauto.
  - intros s e.
    destruct (endpoint_int (start_of start_obj)), (endpoint_int (stop_of end_obj));
      split; intros H; simplify_eq; try done; destruct H; simplify_eq; done.
  - done.
Qed.

(** ** Organizer: a second pass changes nothing *)

Lemma filter_all {A} (f : A -> bool) (l : list A) :
  Forall (fun x => f x = true) l -> List.filter f l = l.
Proof. induction 1 as [|x l Hx _ IH]; simpl; [done|]. by rewrite Hx, IH. Qed.

Lemma filter_none {A} (f : A -> bool) (l : list A) :
  Forall (fun x => f x = false) l -> List.filter f l = [].
Proof. induction 1 as [|x l Hx _ IH]; simpl; [done|]. by rewrite Hx. Qed.

Section Regroup.
Context {A K : Type} `{EqDecision K} (key : A -> K).

Lemma filter_ne_first_occurrences_run (k : K) (run : list K) (l : list K) :
  Forall (fun k' => k' = k) run ->
  List.filter (fun k' => negb (bool_decide (k' = k))) (first_occurrences (run ++ l))
  = List.filter (fun k' => negb (bool_decide (k' = k))) (first_occurrences l).
Proof.
  induction 1 as [|k' run -> _ IH]; simpl; [done|].
  rewrite bool_decide_eq_true_2 by done. simpl.
  rewrite filter_filter_bool, <- IH. apply List.filter_ext. intros x. by destruct (negb _).
Qed.

Lemma filter_ne_absent (k : K) (l : list K) :
  ~ In k l -> List.filter (fun k' => negb (bool_decide (k' = k))) l = l.
Proof.
  intros Hnin. apply filter_all, List.Forall_forall. intros x Hx.
  rewrite bool_decide_eq_false_2; [done|]. by intros ->.
Qed.

Lemma first_occurrences_runs (g : K -> list A) (ks : list K) :
  List.NoDup ks ->
  (forall k, In k ks -> g k <> [] /\ Forall (fun x => key x = k) (g k)) ->
  first_occurrences (List.map key (List.flat_map g ks)) = ks.
Proof.
  induction 1 as [|k ks Hnin Hnd IH]; intros Hg; [done|].
  simpl. rewrite List.map_app.
  destruct (Hg k) as [Hne Hall]; [by left|].
  destruct (g k) as [|x run]; [done|].
  apply Forall_cons in Hall as [Hx Hall]. simpl. rewrite Hx. f_equal.
  rewrite filter_ne_first_occurrences_run.
  - rewrite IH by (intros; apply Hg; by right). by apply filter_ne_absent.
  - clear -Hall. induction Hall; simpl; constructor; done.
Qed.

Lemma group_of_runs (g : K -> list A) (ks : list K) (k0 : K) :
  List.NoDup ks ->
  (forall k, In k ks -> Forall (fun x => key x = k) (g k)) ->
  In k0 ks -> group_of key k0 (List.flat_map g ks) = g k0.
Proof.
  assert (Hrun : forall k l, Forall (fun x => key x = k) l ->
            group_of key k0 l = if decide (k = k0) then l else []).
  { intros k l Hl. unfold group_of. destruct (decide (k = k0)) as [->|Hne].
    - apply filter_all. eapply List.Forall_impl; [|exact Hl].
      intros x Hx. by apply bool_decide_eq_true_2.
    - apply filter_none. eapply List.Forall_impl; [|exact Hl].
      intros x Hx. apply bool_decide_eq_false_2. congruence. }
  induction 1 as [|k ks Hnin Hnd IH]; intros Hg Hin; [done|].
  simpl. unfold group_of in *. rewrite List.filter_app.
  rewrite (Hrun k) by (apply Hg; by left).
  destruct (decide (k = k0)) as [->|Hne].
  - assert (Hrest : List.filter (fun x => bool_decide (key x = k0)) (List.flat_map g ks) = []).
    { apply filter_none, List.Forall_forall. intros x Hx.
      apply in_flat_map in Hx as (k & Hk & Hx).
      assert (Hkx : key x = k).
      { specialize (Hg k (or_intror Hk)). rewrite List.Forall_forall in Hg. by apply Hg. }
      apply bool_decide_eq_false_2. intros Heq. apply Hnin. congruence. }
    by rewrite Hrest, app_nil_r.
  - simpl. apply IH; [intros; apply Hg; by right|]. by destruct Hin.
Qed.

Lemma grouped_order_idem (xs : list A) :
  grouped_order key (grouped_order key xs) = grouped_order key xs.
Proof.
  unfold grouped_order at 1. fold (grouped_order key xs).
  assert (Hg : forall k, In k (first_occurrences (List.map key xs)) ->
             group_of key k xs <> [] /\ Forall (fun x => key x = k) (group_of key k xs)).
  { intros k Hk. rewrite in_first_occurrences in Hk. split.
    - apply in_map_iff in Hk as (x & Hx & Hin). intros Hnil.
      assert (Hgx : In x (group_of key k xs)).
      { apply filter_In. split; [done|]. by apply bool_decide_eq_true_2. }
      by rewrite Hnil in Hgx.
    - apply List.Forall_forall. intros x [_ Hx]%filter_In.
      by apply bool_decide_eq_true in Hx. }
  unfold grouped_order at 2.
  rewrite first_occurrences_runs; [| apply NoDup_first_occurrences | exact Hg].
  unfold grouped_order. apply flat_map_ext_In. intros k Hk.
  apply group_of_runs; [apply NoDup_first_occurrences | | done].
  intros k' Hk'. by apply Hg.
Qed.

Lemma grouped_order_runs (xs : list A) (k : K) :
  In k (first_occurrences (List.map key xs)) ->
  group_of key k xs <> [] /\ Forall (fun x => key x = k) (group_of key k xs).
Proof.
  intros Hk. rewrite in_first_occurrences in Hk. split.
  - apply in_map_iff in Hk as (x & Hx & Hin). intros Hnil.
    assert (Hgx : In x (group_of key k xs)).
    { apply filter_In. split; [done|]. by apply bool_decide_eq_true_2. }
    by rewrite Hnil in Hgx.
  - apply List.Forall_forall. intros x [_ Hx]%filter_In.
    by apply bool_decide_eq_true in Hx.
Qed.

Lemma first_occurrences_grouped_order (xs : list A) :
  first_occurrences (List.map key (grouped_order key xs))
  = first_occurrences (List.map key xs).
Proof.
  unfold grouped_order.
  apply first_occurrences_runs; [apply NoDup_first_occurrences|].
  apply grouped_order_runs.
Qed.

Lemma group_of_grouped_order (xs : list A) (k : K) :
  In k (List.map key xs) ->
  group_of key k (grouped_order key xs) = group_of key k xs.
Proof.
  intros Hk. unfold grouped_order.
  apply group_of_runs; [apply NoDup_first_occurrences | | by apply in_first_occurrences].
  intros k' Hk'. by apply grouped_order_runs.
Qed.

End Regroup.

Lemma organized_order_idem (segs : list Segment) :
  organized_order (organized_order segs) = organized_order segs.
Proof.
  destruct (organized_order_zones segs) as (Hp & Hb & Hs).
  set (P := List.filter (has_type PREFIX) segs) in *.
  set (G := grouped_order label (List.filter (has_type BODY) segs)) in *.
  set (S := List.filter (has_type SUFFIX) segs) in *.
  assert (Hsel : forall t t' l, Forall (fun s => type s = t') l ->
            List.filter (has_type t) l = if decide (t' = t) then l else []).
  { intros t t' l Hl. destruct (decide (t' = t)) as [->|Hne].
    - apply filter_all. eapply List.Forall_impl; [|exact Hl].
      intros s Hs'. by apply has_type_true.
    - apply filter_none. eapply List.Forall_impl; [|exact Hl].
      intros s Hs'. unfold has_type. apply bool_decide_eq_false_2. congruence. }
  change (organized_order segs) with (P ++ G ++ S).
  unfold organized_order. rewrite !List.filter_app.
  rewrite (Hsel PREFIX PREFIX P), (Hsel PREFIX BODY G), (Hsel PREFIX SUFFIX S) by done.
  rewrite (Hsel BODY PREFIX P), (Hsel BODY BODY G), (Hsel BODY SUFFIX S) by done.
  rewrite (Hsel SUFFIX PREFIX P), (Hsel SUFFIX BODY G), (Hsel SUFFIX SUFFIX S) by done.
  simpl. rewrite !app_nil_r. unfold G. by rewrite grouped_order_idem.
Qed.

(** X7: Organizing twice is organizing once. What the organizer
    returns holds only segments it keeps (no body segment without label),
    and never more segments than it was given. *)
Theorem organizer_idempotent (segs : list Segment) :
  _organize_segments_by_label (_organize_segments_by_label segs)
  = _organize_segments_by_label segs
  /\ Forall (fun s => kept s = true) (_organize_segments_by_label segs)
  /\ (length (_organize_segments_by_label segs) <= length segs)%nat.
Proof.
  assert (Hkept : Forall (fun s => kept s = true) (_organize_segments_by_label segs)).
  { rewrite organize_eq_organized_order. apply List.Forall_forall. intros s Hs.
    apply (Permutation_in _ (organized_order_perm _)) in Hs.
    by apply filter_In in Hs as [_ Hs]. }
  split; [|split; [done|]].
  - rewrite (organize_eq_organized_order (_organize_segments_by_label segs)).
    rewrite (filter_all _ _ Hkept), organize_eq_organized_order.
    apply organized_order_idem.
  - rewrite organize_eq_organized_order, (Permutation_length (organized_order_perm _)).
    apply List.filter_length_le.
Qed.

(** ** Segment dictionaries *)

(** ** Renderer: what the grouping keeps *)

Lemma od_has_key (k : group_key) (grouped : grouped_dict) :
  List.existsb (fun kv => bool_decide (fst kv = k)) grouped
  = bool_decide (k ∈ od_keys grouped).
Proof.
  unfold od_keys. induction grouped as [|kv grouped IH]; simpl; [done|].
  rewrite IH. destruct (decide (fst kv = k)) as [<-|Hne].
  - rewrite (bool_decide_eq_true_2 (fst kv = fst kv)) by done.
    by rewrite (bool_decide_eq_true_2 (fst kv ∈ fst kv :: _)) by (by left).
  - rewrite (bool_decide_eq_false_2 (fst kv = k)) by done. simpl.
    apply bool_decide_ext. rewrite elem_of_cons. split; [by right | by intros [?|?]].
Qed.

Lemma od_keys_setdefault (k : group_key) (grouped : grouped_dict) :
  od_keys (od_setdefault k grouped)
  = od_keys grouped ++ (if decide (k ∈ od_keys grouped) then [] else [k]).
Proof.
  unfold od_setdefault. rewrite od_has_key.
  destruct (decide (k ∈ od_keys grouped)).
  - rewrite bool_decide_eq_true_2 by done. by rewrite app_nil_r.
  - rewrite bool_decide_eq_false_2 by done. unfold od_keys. by rewrite List.map_app.
Qed.

Lemma od_keys_append (k : group_key) (x : string) (grouped : grouped_dict) :
  od_keys (od_append k x grouped) = od_keys grouped.
Proof.
  unfold od_keys, od_append. rewrite List.map_map. apply List.map_ext.
  intros kv. by destruct (bool_decide _).
Qed.

Lemma od_keys_group_step (grouped : grouped_dict) (seg : Segment) :
  od_keys (group_step grouped seg)
  = od_keys grouped
      ++ (if decide (segment_key seg ∈ od_keys grouped) then [] else [segment_key seg]).
Proof.
  unfold group_step. fold (segment_key seg).
  destruct (negb _); rewrite ?od_keys_append; apply od_keys_setdefault.
Qed.

Lemma od_get_setdefault (k k' : group_key) (grouped : grouped_dict) :
  od_get k' (od_setdefault k grouped) = od_get k' grouped.
Proof.
  unfold od_setdefault. destruct (List.existsb _ grouped); [done|].
  unfold od_get. induction grouped as [|kv grouped IH]; simpl.
  - by destruct (bool_decide (k = k')).
  - by destruct (bool_decide (fst kv = k')).
Qed.

Lemma od_get_append (k k' : group_key) (x : string) (grouped : grouped_dict) :
  od_get k' (od_append k x grouped)
  = if decide (k' = k /\ k ∈ od_keys grouped)
    then od_get k grouped ++ [x] else od_get k' grouped.
Proof.
  unfold od_get, od_append, od_keys.
  induction grouped as [|kv grouped IH]; simpl.
  - rewrite decide_False; [done|]. intros [_ Hin]. by apply elem_of_nil in Hin.
  - destruct (decide (fst kv = k)) as [Hk|Hk].
    + rewrite (bool_decide_eq_true_2 (fst kv = k)) by done. simpl.
      destruct (decide (fst kv = k')) as [Hk'|Hk'].
      * rewrite bool_decide_eq_true_2 by done. simpl.
        rewrite decide_True; [done|]. split; [congruence|]. rewrite <- Hk. by left.
      * rewrite bool_decide_eq_false_2 by done. rewrite IH.
        rewrite (decide_False (P := k' = k /\ _)) by (intros [? _]; congruence).
        rewrite decide_False; [done|]. intros [? _]; congruence.
    + rewrite (bool_decide_eq_false_2 (fst kv = k)) by done.
      destruct (decide (fst kv = k')) as [Hk'|Hk'].
      * rewrite bool_decide_eq_true_2 by done.
        rewrite decide_False; [done|]. intros [? _]; congruence.
      * rewrite bool_decide_eq_false_2 by done. rewrite IH.
        apply decide_ext. rewrite elem_of_cons.
        split; [intros [-> Hin]; split; [done | by right] | intros [-> [?|?]]; done].
Qed.

Lemma od_get_group_step (grouped : grouped_dict) (seg : Segment) (k : group_key) :
  od_get k (group_step grouped seg)
  = od_get k grouped
      ++ (if decide (k = segment_key seg /\ content seg ∉ od_get k grouped)
          then [PyStr.strip (content seg)] else []).
Proof.
  unfold group_step. fold (segment_key seg).
  rewrite od_get_setdefault, str_in_spec.
  destruct (decide (content seg ∈ od_get (segment_key seg) grouped)) as [Hin|Hnin].
  - rewrite bool_decide_eq_true_2 by done. simpl. rewrite od_get_setdefault.
    rewrite decide_False; [by rewrite app_nil_r|]. intros [-> ?]. done.
  - rewrite bool_decide_eq_false_2 by done. simpl.
    rewrite od_get_append, od_keys_setdefault, !od_get_setdefault.
    destruct (decide (k = segment_key seg)) as [->|Hne].
    + rewrite (decide_True (P := _ /\ _ ∉ _)) by done.
      rewrite decide_True; [done|]. split; [done|].
      destruct (decide (segment_key seg ∈ od_keys grouped)); [by rewrite app_nil_r|].
      apply elem_of_app. right. by left.
    + rewrite (decide_False (P := _ /\ _ ∉ _)) by (by intros [? _]).
      rewrite decide_False by (by intros [? _]). by rewrite app_nil_r.
Qed.

Lemma group_snoc (segs : list Segment) (seg : Segment) :
  _group_segments_by_type_and_label (segs ++ [seg])
  = group_step (_group_segments_by_type_and_label segs) seg.
Proof. unfold _group_segments_by_type_and_label. by rewrite List.fold_left_app. Qed.

Lemma od_keys_group (segs : list Segment) :
  od_keys (_group_segments_by_type_and_label segs)
  = first_occurrences (List.map segment_key segs).
Proof.
  induction segs as [|seg segs IH] using rev_ind; [done|].
  rewrite group_snoc, od_keys_group_step, IH, List.map_app. simpl.
  rewrite first_occurrences_snoc. f_equal.
  apply decide_ext. apply elem_of_first_occurrences.
Qed.

(** X9: Every content listed in a group is the stripped content
    of a segment with the key of that group, and the stripped content of
    every segment is listed in the group of its key: grouping drops
    repetitions and nothing else. *)
Theorem grouping_contents (segs : list Segment) :
  (forall k c,
      In c (od_get k (_group_segments_by_type_and_label segs)) ->
      exists s, In s segs /\ segment_key s = k /\ c = PyStr.strip (content s))
  /\ (forall s,
        In s segs ->
        In (PyStr.strip (content s))
           (od_get (segment_key s) (_group_segments_by_type_and_label segs))).
Proof.
  induction segs as [|seg segs [IHs IHc]] using rev_ind.
  - split; [intros k c [] | intros s []].
  - assert (Hsound : forall k c,
               In c (od_get k (_group_segments_by_type_and_label (segs ++ [seg]))) ->
               exists s, In s (segs ++ [seg]) /\ segment_key s = k
                         /\ c = PyStr.strip (content s)).
    { intros k c. rewrite group_snoc, od_get_group_step, in_app_iff.
      intros [Hold|Hnew].
      - destruct (IHs k c Hold) as (s & Hs & Hk & Hc).
        exists s. rewrite in_app_iff. auto.
      - destruct (decide _) as [[-> _]|_]; [|done].
        destruct Hnew as [<-|[]]. exists seg. rewrite in_app_iff. simpl. auto. }
    split; [exact Hsound|].
    intros s. rewrite group_snoc, od_get_group_step, !in_app_iff.
    intros [Hs|[<-|[]]]; [left; by apply IHc|].
    destruct (decide (content seg ∈ od_get (segment_key seg)
                                        (_group_segments_by_type_and_label segs)))
      as [Hin|Hnin].
    + left. rewrite list_elem_of_In in Hin.
      destruct (IHs _ _ Hin) as (s' & _ & _ & Hc).
      rewrite Hc, strip_idem, <- Hc. done.
    + right. rewrite decide_True by done. by left.
Qed.

(** ** Renderer: zones and the final text *)

Lemma grouped_key_of_segment (segs : list Segment) (kv : group_key * list string) :
  In kv (_group_segments_by_type_and_label segs) ->
  exists s, In s segs /\ segment_key s = fst kv.
Proof.
  intros Hin. assert (Hk : In (fst kv) (od_keys (_group_segments_by_type_and_label segs)))
    by (by apply in_map).
  rewrite od_keys_group in Hk.
  apply in_first_occurrences, in_map_iff in Hk as (s & Hs & Hin'). eauto.
Qed.

Lemma zone_items_none (t : ReportSectionType) (segs : list Segment) :
  Forall (fun s => type s <> t) segs ->
  zone_items t (_group_segments_by_type_and_label segs) = [].
Proof.
  intros Hall. apply filter_none, List.Forall_forall. intros kv Hkv.
  destruct (grouped_key_of_segment _ _ Hkv) as (s & Hs & Hk).
  rewrite List.Forall_forall in Hall. cbv beta. apply bool_decide_eq_false_2.
  destruct kv as [[t' l'] cs]. unfold segment_key in Hk. simplify_eq/=. by apply Hall.
Qed.

Lemma zone_items_some (t : ReportSectionType) (segs : list Segment) :
  Exists (fun s => type s = t) segs ->
  zone_items t (_group_segments_by_type_and_label segs) <> [].
Proof.
  intros (s & Hs & Ht)%List.Exists_exists.
  assert (Hk : In (segment_key s) (od_keys (_group_segments_by_type_and_label segs))).
  { rewrite od_keys_group. apply in_first_occurrences. by apply in_map. }
  apply in_map_iff in Hk as (kv & Hkv & Hin).
  assert (Hz : In kv (zone_items t (_group_segments_by_type_and_label segs))).
  { apply filter_In. split; [done|]. apply bool_decide_eq_true_2.
    destruct kv as [[t' l'] cs]. unfold segment_key in Hkv. by simplify_eq/=. }
  intros Hnil. by rewrite Hnil in Hz.
Qed.

(** X10: A zone without segments renders nothing: each of the
    three zone renderers returns the lines it was given when no segment is
    in its zone. *)
Theorem empty_zone_renders_nothing (segs : list Segment) (parts : list string) :
  (Forall (fun s => type s <> PREFIX) segs ->
     _render_prefix_sections (_group_segments_by_type_and_label segs) segs parts = parts)
  /\ (Forall (fun s => type s <> BODY) segs ->
      _render_body_sections (_group_segments_by_type_and_label segs) parts = parts)
  /\ (Forall (fun s => type s <> SUFFIX) segs ->
      _render_suffix_sections (_group_segments_by_type_and_label segs) parts = parts).
Proof.
  split; [|split]; intros Hall.
  - unfold _render_prefix_sections.
    assert (Hs : structured_prefix_exists segs = false).
    { unfold structured_prefix_exists. apply not_true_is_false.
      rewrite existsb_exists. intros (s & Hin & Hs).
      rewrite List.Forall_forall in Hall. specialize (Hall s Hin).
      unfold has_type in Hs. by rewrite bool_decide_eq_false_2 in Hs. }
    rewrite Hs, fold_left_plain_prefix.
    change (List.filter is_prefix_item ?g) with (zone_items PREFIX g).
    by rewrite zone_items_none.
  - unfold _render_body_sections.
    change (List.filter _ ?g) with (zone_items BODY g).
    by rewrite zone_items_none.
  - unfold _render_suffix_sections.
    change (List.filter _ ?g) with (zone_items SUFFIX g).
    by rewrite zone_items_none.
Qed.

Lemma empty_zone_renders_nothing_witness :
  _render_body_sections (_group_segments_by_type_and_label examined_prefix) ["Header"]
  = ["Header"]
  /\ _render_suffix_sections (_group_segments_by_type_and_label examined_prefix) ["Header"]
     = ["Header"]
  /\ _render_prefix_sections (_group_segments_by_type_and_label unlabelled_body)
                             unlabelled_body ["Header"]
     = ["Header"].
Proof.
  split; [|split].
  - apply (empty_zone_renders_nothing examined_prefix ["Header"]).
    repeat (apply List.Forall_cons; [discriminate|]). apply List.Forall_nil.
  - apply (empty_zone_renders_nothing examined_prefix ["Header"]).
    repeat (apply List.Forall_cons; [discriminate|]). apply List.Forall_nil.
  - apply (empty_zone_renders_nothing unlabelled_body ["Header"]).
    repeat (apply List.Forall_cons; [discriminate|]). apply List.Forall_nil.
Defined.

(** X11: When there is a body segment the body renderer writes the
    banner FINDINGS: and an empty line, after an empty line if lines were
    written before, and then the groups of the body. When there is a suffix
    segment the suffix renderer writes the banner IMPRESSION:, an empty
    line and the suffix contents as one block, after at most one separating
    empty line. *)
Theorem zone_banners (segs : list Segment) (parts : list string) :
  (Exists (fun s => type s = BODY) segs ->
     _render_body_sections (_group_segments_by_type_and_label segs) parts
     = match parts with [] => [] | _ => parts ++ [""] end
         ++ [FINDINGS_HEADER; ""]
         ++ List.flat_map render_body_item
              (zone_items BODY (_group_segments_by_type_and_label segs)))
  /\ (Exists (fun s => type s = SUFFIX) segs ->
      exists separator,
        (separator = [] \/ separator = [""])
        /\ _render_suffix_sections (_group_segments_by_type_and_label segs) parts
           = parts ++ separator
               ++ [IMPRESSION_HEADER; "";
                   PyStr.rstrip
                     (PyStr.join NL
                        (List.flat_map snd
                           (zone_items SUFFIX (_group_segments_by_type_and_label segs))))]).
Proof.
  split; intros Hex.
  - apply zone_items_some in Hex. unfold _render_body_sections.
    change (List.filter _ ?g) with (zone_items BODY g).
    destruct (zone_items BODY _) as [|item items] eqn:Hz; [done|].
    rewrite fold_left_extend. by rewrite <- app_assoc.
  - apply zone_items_some in Hex. unfold _render_suffix_sections.
    change (List.filter _ ?g) with (zone_items SUFFIX g).
    destruct (zone_items SUFFIX _) as [|item items] eqn:Hz; [done|].
    destruct (List.last (List.map Some parts) None) as [final|].
    + destruct (PyStr.truthy (PyStr.strip final)).
      * exists [""]. split; [by right|]. by rewrite <- app_assoc.
      * exists []. split; [by left|]. done.
    + exists []. split; [by left|]. done.
Qed.

Lemma zone_banners_witness :
  _render_body_sections (_group_segments_by_type_and_label interleaved_report) []
  = ["FINDINGS:"; ""; "Lungs: Lungs are clear. No effusion."; "";
     "Heart: Heart size is normal."; ""]
  /\ exists separator,
       _render_suffix_sections (_group_segments_by_type_and_label interleaved_report) []
       = separator ++ ["IMPRESSION:"; ""; "No acute disease."].
Proof.
  split.
  - destruct (zone_banners interleaved_report []) as [Hbody _].
    rewrite Hbody; [vm_compute; reflexivity|].
    apply List.Exists_cons_tl, List.Exists_cons_hd. reflexivity.
  - destruct (zone_banners interleaved_report []) as [_ Hsuffix].
    destruct Hsuffix as (separator & _ & Heq); [apply List.Exists_cons_hd; reflexivity|].
    exists separator. rewrite Heq. vm_compute. reflexivity.
Defined.

(** X12: The rendered text never ends in white space, and
    rendering no segment gives the empty text. *)
Theorem rendered_text_trimmed (segs : list Segment) :
  PyStr.rstrip (_format_segments_to_text segs) = _format_segments_to_text segs
  /\ (forall a, last_char (_format_segments_to_text segs) = Some a ->
                PyStr.is_space a = false)
  /\ _format_segments_to_text [] = "".
Proof.
  unfold _format_segments_to_text at 1 2 3.
  split; [apply rstrip_idem | split; [apply rstrip_last_char | reflexivity]].
Qed.

(** X14: [_strip_exam_prefix] returns a text that does not
    start with white space and is not longer than the one given, and when
    the text, in upper case, starts with none of the known prefixes, it is
    the text stripped. *)
Theorem strip_exam_prefix_trimmed (text : string) :
  (forall a, first_char (_strip_exam_prefix text) = Some a -> PyStr.is_space a = false)
  /\ (String.length (_strip_exam_prefix text) <= String.length text)%nat
  /\ (Forall (fun prefix => PyStr.upper_startswith text prefix = false)
             EXAM_PREFIXES ->
      _strip_exam_prefix text = PyStr.strip text).
Proof.
  unfold _strip_exam_prefix.
  split; [|split].
  - destruct (List.find _ EXAM_PREFIXES); [apply lstrip_first_char | apply strip_first_char].
  - destruct (List.find _ EXAM_PREFIXES) as [prefix|].
    + pose proof (lstrip_length (PyStr.drop (String.length prefix) text)).
      pose proof (drop_length (String.length prefix) text). lia.
    + unfold PyStr.strip.
      pose proof (rstrip_length (PyStr.lstrip text)).
      pose proof (lstrip_length text). lia.
  - intros Hnone. destruct (List.find _ EXAM_PREFIXES) as [prefix|] eqn:Hf; [|done].
    apply find_some in Hf as [Hin Hp]. rewrite List.Forall_forall in Hnone.
    specialize (Hnone _ Hin). unfold PyStr.upper_startswith in Hnone.
    by rewrite Hnone in Hp.
Qed.

(** ** [predict]: the engine and the response *)

(** X15: On a report that is not blank, [predict] marks the
    patches as initialised and calls the engine once, with the report as it
    was given and the buffer size. When the engine raises a value, type or
    attribute error, the result is the error response with its message,
    no segment and no prompt; any other exception is raised to the
    caller. *)
Theorem predict_calls_engine_once
    (lx_extract : string -> Z -> outcome AnnotatedDocument)
    (generate_markdown_prompt : string -> string)
    (report_text : string) (max_char_buffer : Z) (self : Structurer) :
  PyStr.all_space report_text = false ->
  snd (predict lx_extract generate_markdown_prompt report_text max_char_buffer self)
  = mkStructurer true (engine_calls self ++ [(report_text, max_char_buffer)])
  /\ forall e,
       lx_extract report_text max_char_buffer = Raised e ->
       fst (predict lx_extract generate_markdown_prompt report_text max_char_buffer self)
       = if caught_by_predict e
         then Returned (mkResponse [] JsonEmpty
                                   ("Error processing report: " +:+ exn_str e) "")
         else Raised e.
Proof.
  intros Htext. unfold predict. rewrite (strip_not_all_space _ Htext). simpl.
  destruct (lx_extract report_text max_char_buffer) as [result|e].
  - split; [done|]. discriminate.
  - split; [by destruct (caught_by_predict e)|].
    intros e' [= <-]. by destruct (caught_by_predict e).
Qed.

Lemma predict_calls_engine_once_witness :
  predict crashing_engine (fun t => t) "Lungs are clear." 2000 (mkStructurer false [])
  = (Raised (OtherException "connection reset"),
     mkStructurer true [("Lungs are clear.", 2000%Z)]).
Proof.
  destruct (predict_calls_engine_once crashing_engine (fun t => t) "Lungs are clear." 2000
              (mkStructurer false [])) as [Hstate Hresult]; [reflexivity|].
  specialize (Hresult (OtherException "connection reset") eq_refl).
  destruct (predict crashing_engine (fun t => t) "Lungs are clear." 2000
              (mkStructurer false [])) as [r st].
  simpl in *. by rewrite Hstate, Hresult.
Defined.

(** ** Cache store: round trips, persistence, statistics *)

Section CacheStore.
Context {Payload : Type} {encodable : JsonEncodable Payload}
        (md5_hexdigest : string -> string).

(** X17: What [cache_result] stores, [get_cached_result] finds
    with the same text and sample id; lookups under every other key are as
    before; and under a sample id that is not empty the entry is found
    whatever the text. *)
Theorem cache_round_trip
    (text : string) (p : Payload) (sample_id : option string)
    (self : CacheManager Payload) :
  get_cached_result md5_hexdigest text sample_id
    (cache_result md5_hexdigest text p sample_id self) = Some p
  /\ (forall text' sample_id',
        _get_cache_key md5_hexdigest text' sample_id'
        <> _get_cache_key md5_hexdigest text sample_id ->
        get_cached_result md5_hexdigest text' sample_id'
          (cache_result md5_hexdigest text p sample_id self)
        = get_cached_result md5_hexdigest text' sample_id' self)
  /\ (forall id text',
        sample_id = Some id -> id <> "" ->
        get_cached_result md5_hexdigest text' (Some id)
          (cache_result md5_hexdigest text p sample_id self) = Some p).
Proof.
  assert (Hdata : _cache_data (cache_result md5_hexdigest text p sample_id self)
                  = <[_get_cache_key md5_hexdigest text sample_id := p]> (_cache_data self)).
  { unfold cache_result, _save_cache. simpl. by destruct (writable self). }
  unfold get_cached_result. rewrite Hdata.
  split; [apply lookup_insert_eq | split].
  - intros text' sample_id' Hne. by rewrite lookup_insert_ne.
  - intros id text' -> Hid.
    assert (Hkey : forall t, _get_cache_key md5_hexdigest t (Some id)
                             = _get_cache_key md5_hexdigest text (Some id)).
    { intros t. unfold _get_cache_key. apply truthy_nonempty in Hid. by rewrite Hid. }
    rewrite (Hkey text'). apply lookup_insert_eq.
Qed.




Lemma startswith_sample_not_custom (key : string) :
  PyStr.startswith key "sample_" = true -> PyStr.startswith key "custom_" = false.
Proof.
  intros H. apply startswith_drop in H. rewrite H. reflexivity.
Qed.

Lemma count_two_filters {A} (f g : A -> bool) (l : list A) :
  (forall x, f x = true -> g x = false) ->
  (length (List.filter f l) + length (List.filter g l) <= length l)%nat
  /\ (Forall (fun x => f x || g x = true) l ->
      (length (List.filter f l) + length (List.filter g l))%nat = length l).
Proof.
  intros Hdis. induction l as [|x l [IHle IHeq]]; simpl; [split; [lia | done]|].
  destruct (f x) eqn:Hf.
  - rewrite (Hdis x Hf). simpl. split; [lia|].
    intros [_ Hl]%Forall_cons. specialize (IHeq Hl). lia.
  - destruct (g x) eqn:Hg; simpl.
    + split; [lia|]. intros [_ Hl]%Forall_cons. specialize (IHeq Hl). lia.
    + split; [lia|]. intros [Hx _]%Forall_cons. by rewrite Hf, Hg in Hx.
Qed.

(** X19: In the statistics the sample entries and the custom
    entries never count more than the total, and they add up to the total
    when every key is in one of the two namespaces. After [clear_cache] all
    three counts are zero. *)
Theorem cache_stats_counts (cache_file_path : string) (self : CacheManager Payload) :
  (sample_entries (get_cache_stats cache_file_path self)
   + custom_entries (get_cache_stats cache_file_path self)
   <= total_entries (get_cache_stats cache_file_path self))%nat
  /\ (keys_in_namespace self ->
      (sample_entries (get_cache_stats cache_file_path self)
       + custom_entries (get_cache_stats cache_file_path self))%nat
      = total_entries (get_cache_stats cache_file_path self))
  /\ get_cache_stats cache_file_path (clear_cache self)
     = mkStats 0 0 0 cache_file_path
               (writable self || file_exists (cache_file self)).
Proof.
  destruct (count_two_filters
              (fun key => PyStr.startswith key "sample_")
              (fun key => PyStr.startswith key "custom_")
              (List.map fst (map_to_list (_cache_data self)))
              startswith_sample_not_custom) as [Hle Heq].
  rewrite length_map, length_map_to_list in Hle, Heq.
  split; [exact Hle | split].
  - intros Hns. apply Heq. apply List.Forall_forall. intros key Hkey.
    apply in_map_iff in Hkey as ([k v] & <- & Hkv).
    apply list_elem_of_In, elem_of_map_to_list in Hkv. exact (Hns k v Hkv).
  - assert (Hdata : _cache_data (clear_cache self) = ∅).
    { unfold clear_cache, _save_cache. simpl. by destruct (writable self). }
    assert (Hfile : file_exists (cache_file (clear_cache self))
                    = writable self || file_exists (cache_file self)).
    { unfold clear_cache, _save_cache, json_dump. simpl.
      destruct (writable self); simpl; [|done].
      by destruct (all_encodable _). }
    unfold get_cache_stats, count_keys. rewrite Hdata, Hfile.
    rewrite map_size_empty, map_to_list_empty. reflexivity.
Qed.

Lemma cache_key_in_namespace (text : string) (sample_id : option string) :
  key_in_namespace (_get_cache_key md5_hexdigest text sample_id) = true.
Proof.
  unfold key_in_namespace, _get_cache_key.
  destruct sample_id as [id|]; [destruct (PyStr.truthy id)|].
  - destruct (PyStr.startswith id "sample_") eqn:Hp; [by rewrite Hp|].
    by rewrite (startswith_app "sample_").
  - by rewrite (startswith_app "custom_"), orb_true_r.
  - by rewrite (startswith_app "custom_"), orb_true_r.
Qed.

Lemma cache_result_in_namespace
    (text : string) (p : Payload) (sample_id : option string)
    (self : CacheManager Payload) :
  keys_in_namespace self ->
  keys_in_namespace (cache_result md5_hexdigest text p sample_id self).
Proof.
  unfold keys_in_namespace, cache_result, _save_cache. simpl. intros Hns.
  destruct (writable self); simpl;
    (apply map_Forall_insert_2; [apply cache_key_in_namespace | done]).
Qed.

(** X20: Every key of the cache starts with sample_ or
    custom_: this holds of the empty cache and is kept by [cache_result],
    [clear_cache] and [remove_sample]. *)
Theorem cache_keys_stay_in_namespace
    (text : string) (p : Payload) (sample_id : option string) (id : string)
    (self : CacheManager Payload) :
  keys_in_namespace (mkCache ∅ (cache_file self) (writable self))
  /\ (keys_in_namespace self ->
      keys_in_namespace (cache_result md5_hexdigest text p sample_id self)
      /\ keys_in_namespace (clear_cache self)
      /\ keys_in_namespace (snd (remove_sample id self))).
Proof.
  split; [apply map_Forall_empty|]. intros Hns.
  split; [by apply cache_result_in_namespace | split].
  - unfold keys_in_namespace, clear_cache, _save_cache. simpl.
    destruct (writable self); apply map_Forall_empty.
  - unfold keys_in_namespace, remove_sample, _save_cache in *.
    destruct (_cache_data self !! _); simpl; [|done].
    destruct (writable self); simpl; by apply map_Forall_delete.
Qed.

(** X21: [remove_sample] returns true exactly when the key
    sample_ followed by the id is in the cache; afterwards that key is
    absent and every other key is as before. *)
Theorem remove_sample_exact (id : string) (self : CacheManager Payload) :
  fst (remove_sample id self)
  = bool_decide (is_Some (_cache_data self !! ("sample_" +:+ id)))
  /\ _cache_data (snd (remove_sample id self))
     = delete ("sample_" +:+ id) (_cache_data self)
  /\ _cache_data (snd (remove_sample id self)) !! ("sample_" +:+ id) = None
  /\ (forall key,
        key <> "sample_" +:+ id ->
        _cache_data (snd (remove_sample id self)) !! key = _cache_data self !! key).
Proof.
  assert (Hdata : _cache_data (snd (remove_sample id self))
                  = delete ("sample_" +:+ id) (_cache_data self)).
  { unfold remove_sample, _save_cache.
    destruct (_cache_data self !! _) eqn:Hk; simpl.
    - by destruct (writable self).
    - by rewrite delete_id. }
  rewrite Hdata. split; [|split; [done | split]].
  - unfold remove_sample. destruct (_cache_data self !! _); cbn [fst]; symmetry.
    + apply bool_decide_eq_true_2. eauto.
    + apply bool_decide_eq_false_2. by intros [? ?].
  - apply lookup_delete_eq.
  - intros key Hne. by rewrite lookup_delete_ne.
Qed.

End CacheStore.


Lemma cache_stats_counts_witness :
  (sample_entries
     (get_cache_stats "cache/sample_cache.json"
        (cache_result example_digest "report" "payload" None
           (cache_result example_digest "report" "payload" (Some "7")
                         (mkCache ∅ FileMissing true))))
   + custom_entries
       (get_cache_stats "cache/sample_cache.json"
          (cache_result example_digest "report" "payload" None
             (cache_result example_digest "report" "payload" (Some "7")
                           (mkCache ∅ FileMissing true)))))%nat
  = total_entries
      (get_cache_stats "cache/sample_cache.json"
         (cache_result example_digest "report" "payload" None
            (cache_result example_digest "report" "payload" (Some "7")
                          (mkCache ∅ FileMissing true)))).
Proof.
  apply cache_stats_counts.
  repeat apply cache_result_in_namespace. apply map_Forall_empty.
Defined.

(** ** Cache store: batch population *)

Section BatchFacts.
Context {Payload : Type} {encodable : JsonEncodable Payload}
        (md5_hexdigest : string -> string)
        (payload_truthy : Payload -> bool)
        (structurer_callable : string -> outcome Payload) (force_refresh : bool).







(** X22: With no sample, or with the lock marker there and no
    forced refresh, [prepopulate_cache_with_samples] returns without
    touching the cache, the file or the lock. *)
Theorem prepopulate_skipped
    (samples : list (gmap string string)) (dir : CacheDir Payload) :
  samples = [] \/ (lock_file dir = true /\ force_refresh = false) ->
  prepopulate_cache_with_samples md5_hexdigest payload_truthy samples
                                 structurer_callable force_refresh dir
  = (Returned tt, dir).
Proof.
  unfold prepopulate_cache_with_samples.
  intros [-> | [Hlock ->]]; [done|]. rewrite Hlock. by destruct samples.
Qed.




End BatchFacts.

Lemma prepopulate_skipped_witness :
  prepopulate_cache_with_samples example_digest PyStr.truthy example_samples
                                 example_callable false
                                 (mkCacheDir (mkCache ∅ FileMissing true) true 0)
  = (Returned tt, mkCacheDir (mkCache ∅ FileMissing true) true 0).
Proof.
  apply (prepopulate_skipped example_digest PyStr.truthy example_callable false).
  right. split; reflexivity.
Defined.



(** ** Cleaning of prompt examples *)

Lemma clean_dict_well_cleaned {Scalar} (obj : json Scalar) :
  well_cleaned (clean_dict obj) = true.
Proof.
  induction obj as [| v | items IH | items IH] using json_nested_ind; try done.
  - simpl. induction IH as [|item rest Hitem _ IHrest]; [done|].
    destruct (is_JNone (clean_dict item)) eqn:Hn; [done|].
    simpl. by rewrite Hn, Hitem, IHrest.
  - simpl. induction IH as [|[key value] rest Hvalue _ IHrest]; [done|].
    simpl in Hvalue.
    destruct (kept_value (clean_dict value)) eqn:Hk; [|done].
    by rewrite Hk, Hvalue, IHrest.
Qed.

Lemma clean_dict_fixed {Scalar} (obj : json Scalar) :
  well_cleaned obj = true -> clean_dict obj = obj.
Proof.
  induction obj as [| v | items IH | items IH] using json_nested_ind; try done.
  - simpl. intros Hw. f_equal.
    induction IH as [|item rest Hitem _ IHrest]; [done|].
    apply andb_prop in Hw as [[Hn Hi]%andb_prop Hr].
    rewrite (Hitem Hi), (IHrest Hr). by destruct (is_JNone item).
  - simpl. intros Hw. f_equal.
    induction IH as [|[key value] rest Hvalue _ IHrest]; [done|].
    apply andb_prop in Hw as [[Hk Hv]%andb_prop Hr]. simpl in Hvalue.
    by rewrite (Hvalue Hv), (IHrest Hr), Hk.
Qed.

(** X25: [clean_dict] leaves nothing to clean: in its result
    no dict entry holds None, an empty dict or an empty list and no list
    holds None, at any depth; cleaning a second time, or cleaning a value
    that is already clean, changes nothing. *)
Theorem clean_dict_idempotent {Scalar} (obj : json Scalar) :
  clean_dict (clean_dict obj) = clean_dict obj
  /\ well_cleaned (clean_dict obj) = true
  /\ (well_cleaned obj = true -> clean_dict obj = obj).
Proof.
  split; [|split].
  - apply clean_dict_fixed, clean_dict_well_cleaned.
  - apply clean_dict_well_cleaned.
  - apply clean_dict_fixed.
Qed.

Lemma clean_dict_idempotent_witness :
  clean_dict (clean_dict example_json) = clean_dict example_json
  /\ clean_dict (JList [JScalar "a"; JDict []])
     = JList [JScalar "a"; JDict []].
Proof.
  split.
  - destruct (clean_dict_idempotent example_json) as [Hidem _]. exact Hidem.
  - destruct (clean_dict_idempotent (JList [JScalar "a"; JDict []])) as (_ & _ & Hfixed).
    apply Hfixed. reflexivity.
Defined.

Lemma clean_dict_list {Scalar} (items : list (json Scalar)) :
  clean_dict (JList items)
  = JList (List.filter (fun c => negb (is_JNone c)) (List.map clean_dict items)).
Proof.
  simpl. f_equal. induction items as [|item rest IH]; [done|]. simpl.
  destruct (is_JNone (clean_dict item)); simpl; by rewrite IH.
Qed.

Lemma clean_dict_dict {Scalar} (items : list (string * json Scalar)) :
  clean_dict (JDict items)
  = JDict (List.filter (fun kv => kept_value (snd kv))
                       (List.map (fun kv => (fst kv, clean_dict (snd kv))) items)).
Proof.
  simpl. f_equal. induction items as [|[key value] rest IH]; [done|]. simpl.
  destruct (kept_value (clean_dict value)); simpl; by rewrite IH.
Qed.

(** X26: [clean_dict] keeps every scalar, the empty string,
    zero and False included: a scalar is returned as it is, a scalar element
    of a list and a scalar entry of a dict stay. It never makes a list or a
    dict longer, and every key of the cleaned dict is a key of the
    original. *)
Theorem clean_dict_keeps_scalars {Scalar} (v : Scalar) :
  clean_dict (JScalar v) = JScalar v
  /\ (forall items cleaned,
        clean_dict (JList items) = JList cleaned ->
        (In (JScalar v) items -> In (JScalar v) cleaned)
        /\ (length cleaned <= length items)%nat)
  /\ (forall items cleaned key,
        clean_dict (JDict items) = JDict cleaned ->
        (In (key, JScalar v) items -> In (key, JScalar v) cleaned)
        /\ (length cleaned <= length items)%nat
        /\ forall k c, In (k, c) cleaned -> exists value, In (k, value) items).
Proof.
  split; [done | split].
  - intros items cleaned. rewrite clean_dict_list. intros [= <-]. split.
    + intros Hin. apply filter_In. split; [|done].
      apply in_map_iff. by exists (JScalar v).
    + rewrite <- (length_map clean_dict items). apply List.filter_length_le.
  - intros items cleaned key. rewrite clean_dict_dict. intros [= <-]. split; [|split].
    + intros Hin. apply filter_In. split; [|done].
      apply in_map_iff. by exists (key, JScalar v).
    + rewrite <- (length_map (fun kv => (fst kv, clean_dict (snd kv))) items).
      apply List.filter_length_le.
    + intros k c [Hin _]%filter_In.
      apply in_map_iff in Hin as ([k' value] & [= <- <-] & Hin). by exists value.
Qed.

(** ** Renderer: the grouping in closed form, and rendering after organizing *)

Lemma group_contents_snoc (segs : list Segment) (seg : Segment) :
  group_contents (segs ++ [seg])
  = group_contents segs
      ++ (if decide (content seg ∉ group_contents segs)
          then [PyStr.strip (content seg)] else []).
Proof.
  unfold group_contents. rewrite List.fold_left_app. simpl. rewrite str_in_spec.
  destruct (decide (content seg ∉ _)) as [Hnin|Hin].
  - by rewrite bool_decide_eq_false_2.
  - rewrite bool_decide_eq_true_2; [by rewrite app_nil_r|]. by apply dec_stable.
Qed.

Lemma od_get_group (segs : list Segment) (k : group_key) :
  od_get k (_group_segments_by_type_and_label segs)
  = group_contents (group_of segment_key k segs).
Proof.
  induction segs as [|seg segs IH] using rev_ind; [done|].
  rewrite group_snoc, od_get_group_step, group_of_snoc, IH.
  destruct (decide (segment_key seg = k)) as [<-|Hne].
  - rewrite group_contents_snoc.
    f_equal. apply decide_ext. split; [by intros [_ ?] | done].
  - rewrite app_nil_r, decide_False; [by rewrite app_nil_r|]. by intros [-> _].
Qed.

Lemma od_entries (grouped : grouped_dict) :
  List.NoDup (od_keys grouped) ->
  grouped = List.map (fun k => (k, od_get k grouped)) (od_keys grouped).
Proof.
  unfold od_keys, od_get. induction grouped as [|[k v] grouped IH]; [done|].
  simpl. intros Hnd. apply List.NoDup_cons_iff in Hnd as [Hnin Hnd].
  rewrite (bool_decide_eq_true_2 (k = k)) by done. f_equal.
  etransitivity; [by apply IH|]. apply map_ext_in.
  intros k' Hk'. simpl. rewrite bool_decide_eq_false_2; [done|]. by intros ->.
Qed.

Lemma group_closed_form (segs : list Segment) :
  _group_segments_by_type_and_label segs
  = List.map (fun k => (k, group_contents (group_of segment_key k segs)))
             (first_occurrences (List.map segment_key segs)).
Proof.
  rewrite (od_entries (_group_segments_by_type_and_label segs)) at 1.
  - rewrite od_keys_group. apply List.map_ext. intros k. by rewrite od_get_group.
  - rewrite od_keys_group. apply NoDup_first_occurrences.
Qed.

Lemma first_occurrences_filter {K} `{EqDecision K} (f : K -> bool) (l : list K) :
  List.filter f (first_occurrences l) = first_occurrences (List.filter f l).
Proof.
  induction l as [|k l IH]; [done|]. simpl.
  rewrite filter_filter_bool.
  destruct (f k) eqn:Hk; simpl.
  - f_equal. rewrite <- IH, filter_filter_bool. apply List.filter_ext.
    intros x. apply andb_comm.
  - rewrite <- IH. apply filter_ext_in. intros x Hx.
    destruct (decide (x = k)) as [->|Hne].
    + by rewrite Hk, andb_false_r.
    + by rewrite bool_decide_eq_false_2.
Qed.

Lemma first_occurrences_map_inj {A B} `{EqDecision A} `{EqDecision B}
    (g : A -> B) (l : list A) :
  (forall x y, g x = g y -> x = y) ->
  first_occurrences (List.map g l) = List.map g (first_occurrences l).
Proof.
  intros Hinj. induction l as [|a l IH]; simpl; [done|].
  f_equal. rewrite IH. generalize (first_occurrences l) as m.
  induction m as [|b m IHm]; simpl; [done|].
  destruct (decide (b = a)) as [->|Hne].
  - by rewrite !bool_decide_eq_true_2.
  - rewrite (bool_decide_eq_false_2 (b = a)) by done.
    rewrite (bool_decide_eq_false_2 (g b = g a)) by (intros ?%Hinj; done).
    simpl. by rewrite IHm.
Qed.

Lemma filter_zone_keys (t : ReportSectionType) (segs : list Segment) :
  List.filter (fun k : group_key => bool_decide (fst k = t)) (List.map segment_key segs)
  = List.map segment_key (List.filter (has_type t) segs).
Proof.
  induction segs as [|s segs IH]; [done|]. simpl. unfold has_type at 1.
  destruct (bool_decide (type s = t)); simpl; by rewrite IH.
Qed.

Lemma filter_zone_entries (t : ReportSectionType) (f : group_key -> list string)
    (l : list group_key) :
  List.filter (fun kv : group_key * list string => bool_decide (fst (fst kv) = t))
              (List.map (fun k => (k, f k)) l)
  = List.map (fun k => (k, f k)) (List.filter (fun k => bool_decide (fst k = t)) l).
Proof.
  induction l as [|k l IH]; [done|]. simpl.
  destruct (bool_decide (fst k = t)); simpl; by rewrite IH.
Qed.

(** The zone part of the grouping depends on the segments of the zone
    alone. *)
Lemma zone_items_group (t : ReportSectionType) (segs : list Segment) :
  zone_items t (_group_segments_by_type_and_label segs)
  = _group_segments_by_type_and_label (List.filter (has_type t) segs).
Proof.
  rewrite !group_closed_form. unfold zone_items.
  rewrite filter_zone_entries, first_occurrences_filter, filter_zone_keys.
  apply map_ext_in. intros k Hk. f_equal. f_equal.
  apply in_first_occurrences, in_map_iff in Hk as (s & <- & Hs).
  apply filter_In in Hs as [_ Hs]. apply has_type_true in Hs.
  unfold group_of. rewrite filter_filter_bool. apply List.filter_ext.
  intros x. unfold has_type, segment_key.
  destruct (decide ((type x, label x) = (type s, label s))) as [Heq|Hne].
  - rewrite bool_decide_eq_true_2 by done. simplify_eq.
    by rewrite bool_decide_eq_true_2 by congruence.
  - rewrite (bool_decide_eq_false_2 _ Hne). by rewrite andb_false_r.
Qed.

(** X8: The renderer's grouping has one entry per pair of zone and
    label, in the order in which the pairs first occur, with no key twice.
    The entry of a key depends only on the segments of that key, taken in
    order; and the entries of one zone are the grouping of the segments of
    that zone alone. *)
Theorem grouping_keys (segs : list Segment) :
  od_keys (_group_segments_by_type_and_label segs)
  = first_occurrences (List.map segment_key segs)
  /\ List.NoDup (od_keys (_group_segments_by_type_and_label segs))
  /\ (forall k,
        od_get k (_group_segments_by_type_and_label segs)
        = group_contents (group_of segment_key k segs))
  /\ (forall t,
        zone_items t (_group_segments_by_type_and_label segs)
        = _group_segments_by_type_and_label (List.filter (has_type t) segs)).
Proof.
  split; [apply od_keys_group | split; [|split]].
  - rewrite od_keys_group. apply NoDup_first_occurrences.
  - intros k. apply od_get_group.
  - intros t. apply zone_items_group.
Qed.

Lemma body_keys (segs : list Segment) :
  Forall (fun s => type s = BODY) segs ->
  List.map segment_key segs = List.map (fun l => (BODY, l)) (List.map label segs).
Proof.
  intros Hall. rewrite List.map_map. apply map_ext_in. intros s Hs.
  rewrite List.Forall_forall in Hall. unfold segment_key. by rewrite (Hall s Hs).
Qed.

Lemma group_of_body_key (segs : list Segment) (l : option string) :
  Forall (fun s => type s = BODY) segs ->
  group_of segment_key (BODY, l) segs = group_of label l segs.
Proof.
  intros Hall. unfold group_of. apply filter_ext_in. intros s Hs.
  rewrite List.Forall_forall in Hall. unfold segment_key. rewrite (Hall s Hs).
  apply bool_decide_ext. split; [by intros [= ->] | by intros ->].
Qed.

(** Regrouping the segments of the body by label does not change what
    the renderer collects from them. *)
Lemma group_grouped_order (body : list Segment) :
  Forall (fun s => type s = BODY) body ->
  _group_segments_by_type_and_label (grouped_order label body)
  = _group_segments_by_type_and_label body.
Proof.
  intros Hall.
  assert (Hall' : Forall (fun s => type s = BODY) (grouped_order label body)).
  { apply List.Forall_forall. intros s Hs.
    apply (Permutation_in _ (grouped_order_perm label body)) in Hs.
    rewrite List.Forall_forall in Hall. by apply Hall. }
  rewrite !group_closed_form, (body_keys _ Hall), (body_keys _ Hall').
  rewrite !(first_occurrences_map_inj (fun l : option string => (BODY, l)))
    by (by intros ? ? [= ->]).
  rewrite first_occurrences_grouped_order, List.map_map.
  rewrite List.map_map. apply map_ext_in. intros l Hl. f_equal. f_equal.
  rewrite !group_of_body_key by done.
  apply group_of_grouped_order. by apply in_first_occurrences.
Qed.

Lemma filter_organized_order (t : ReportSectionType) (segs : list Segment) :
  List.filter (has_type t) (organized_order segs)
  = match t with
    | BODY => grouped_order label (List.filter (has_type BODY) segs)
    | _ => List.filter (has_type t) segs
    end.
Proof.
  destruct (organized_order_zones segs) as (Hp & Hb & Hs).
  assert (Hsel : forall t t' l, Forall (fun s => type s = t') l ->
            List.filter (has_type t) l = if decide (t' = t) then l else []).
  { intros u u' l Hl. destruct (decide (u' = u)) as [->|Hne].
    - apply filter_all. eapply List.Forall_impl; [|exact Hl].
      intros s Hs'. by apply has_type_true.
    - apply filter_none. eapply List.Forall_impl; [|exact Hl].
      intros s Hs'. unfold has_type. apply bool_decide_eq_false_2. congruence. }
  unfold organized_order. rewrite !List.filter_app.
  rewrite (Hsel t PREFIX _ Hp), (Hsel t BODY _ Hb), (Hsel t SUFFIX _ Hs).
  destruct t; simpl; by rewrite ?app_nil_r.
Qed.

Lemma zone_items_organized (t : ReportSectionType) (segs : list Segment) :
  zone_items t (_group_segments_by_type_and_label (organized_order segs))
  = zone_items t (_group_segments_by_type_and_label segs).
Proof.
  rewrite !zone_items_group, filter_organized_order.
  destruct t; try done. apply group_grouped_order.
  apply List.Forall_forall. intros s [_ Hs]%filter_In. by apply has_type_true.
Qed.

Lemma existsb_perm {A} (f : A -> bool) (l l' : list A) :
  Permutation l l' -> List.existsb f l = List.existsb f l'.
Proof.
  induction 1 as [|x l l' _ IH|x y l|l l' l'' _ IH1 _ IH2]; simpl.
  - done.
  - by rewrite IH.
  - by destruct (f x), (f y).
  - by rewrite IH1.
Qed.

Lemma render_body_by_zone (grouped grouped' : grouped_dict) (parts : list string) :
  zone_items BODY grouped = zone_items BODY grouped' ->
  _render_body_sections grouped parts = _render_body_sections grouped' parts.
Proof. unfold zone_items, _render_body_sections. by intros ->. Qed.

Lemma render_suffix_by_zone (grouped grouped' : grouped_dict) (parts : list string) :
  zone_items SUFFIX grouped = zone_items SUFFIX grouped' ->
  _render_suffix_sections grouped parts = _render_suffix_sections grouped' parts.
Proof. unfold zone_items, _render_suffix_sections. by intros ->. Qed.

Lemma render_prefix_by_zone
    (grouped grouped' : grouped_dict) (segs segs' : list Segment) (parts : list string) :
  zone_items PREFIX grouped = zone_items PREFIX grouped' ->
  structured_prefix_exists segs = structured_prefix_exists segs' ->
  _render_prefix_sections grouped segs parts
  = _render_prefix_sections grouped' segs' parts.
Proof.
  unfold _render_prefix_sections. intros Hz ->.
  rewrite !fold_left_render_prefix, !fold_left_plain_prefix.
  change (List.filter is_prefix_item grouped) with (zone_items PREFIX grouped).
  change (List.filter is_prefix_item grouped') with (zone_items PREFIX grouped').
  by rewrite Hz.
Qed.

(** The text is made from the groups zone by zone. *)
Lemma format_by_zones (segs segs' : list Segment) :
  (forall t, zone_items t (_group_segments_by_type_and_label segs)
             = zone_items t (_group_segments_by_type_and_label segs')) ->
  structured_prefix_exists segs = structured_prefix_exists segs' ->
  _format_segments_to_text segs = _format_segments_to_text segs'.
Proof.
  intros Hz Hs. unfold _format_segments_to_text.
  rewrite (render_prefix_by_zone _ _ segs segs' [] (Hz PREFIX) Hs).
  rewrite (render_body_by_zone _ _ _ (Hz BODY)).
  by rewrite (render_suffix_by_zone _ _ _ (Hz SUFFIX)).
Qed.

Lemma format_organized_labelled (segs : list Segment) :
  Forall (fun s => type s = BODY -> truthy_label (label s) = true) segs ->
  _format_segments_to_text (_organize_segments_by_label segs)
  = _format_segments_to_text segs.
Proof.
  intros Hl. rewrite organize_eq_organized_order, (filter_kept_all _ Hl).
  apply format_by_zones.
  - intros t. apply zone_items_organized.
  - unfold structured_prefix_exists. apply existsb_perm, organized_order_perm.
Qed.

(** X13: When every body segment has a label, organizing
    the segments first does not change the rendered text: the renderer
    groups by zone and label itself. *)
Theorem rendering_ignores_organizing (segs : list Segment) :
  Forall (fun s => type s = BODY -> truthy_label (label s) = true) segs ->
  _format_segments_to_text (_organize_segments_by_label segs)
  = _format_segments_to_text segs.
Proof.
  intros Hlabelled.
  rewrite organize_eq_organized_order, (filter_kept_all _ Hlabelled).
  apply format_by_zones.
  - intros t. rewrite !zone_items_group, filter_organized_order.
    destruct t; try done. apply group_grouped_order.
    apply List.Forall_forall. intros s [_ Hs]%filter_In. by apply has_type_true.
  - unfold structured_prefix_exists. apply existsb_perm, organized_order_perm.
Qed.

Lemma rendering_ignores_organizing_witness :
  _format_segments_to_text (_organize_segments_by_label interleaved_report)
  = _format_segments_to_text interleaved_report.
Proof.
  apply rendering_ignores_organizing.
  repeat (apply List.Forall_cons; [intros _; reflexivity|]). apply List.Forall_nil.
Defined.

(** ** [predict]: a successful run *)

(** X16: When the report is not blank and the engine returns a
    document, [predict] returns a response: its segments are the dicts of
    the segments the builder makes, up to order, one per extraction of a
    known class; its text is the rendering of the builder's segments; its
    document is the list of extractions of the engine; its prompt is the
    generated prompt. *)
Theorem predict_success
    (lx_extract : string -> Z -> outcome AnnotatedDocument)
    (generate_markdown_prompt : string -> string)
    (report_text : string) (max_char_buffer : Z) (self : Structurer)
    (result : AnnotatedDocument) :
  PyStr.all_space report_text = false ->
  lx_extract report_text max_char_buffer = Returned result ->
  exists response,
    predict lx_extract generate_markdown_prompt report_text max_char_buffer self
    = (Returned response,
       mkStructurer true (engine_calls self ++ [(report_text, max_char_buffer)]))
    /\ Permutation (segments response)
                   (List.map to_dict (_build_segments_from_langextract_result result))
    /\ length (segments response) = length (List.filter is_mapped (extractions result))
    /\ text response
       = _format_segments_to_text (_build_segments_from_langextract_result result)
    /\ annotated_document_json response = JsonExtractions (extractions result)
    /\ raw_prompt response = generate_markdown_prompt report_text.
Proof.
  intros Htext Hrun. unfold predict. rewrite (strip_not_all_space _ Htext). simpl.
  rewrite Hrun. eexists. split; [reflexivity|]. simpl.
  assert (Hperm : Permutation
            (_organize_segments_by_label (_build_segments_from_langextract_result result))
            (_build_segments_from_langextract_result result)).
  { apply organize_perm_labelled.
    eapply List.Forall_impl; [|apply build_labels_truthy]. auto. }
  assert (Hlabels : Forall (fun s => type s = BODY -> truthy_label (label s) = true)
                      (_build_segments_from_langextract_result result)).
  { eapply List.Forall_impl; [|apply build_labels_truthy]. auto. }
  split; [by apply Permutation_map|].
  split; [|split; [by apply format_organized_labelled | done]].
  rewrite length_map, (Permutation_length Hperm), build_segments_flat_map.
  induction (extractions result) as [|e es IH]; [done|]. simpl.
  rewrite length_app, IH, segments_of_extraction_spec. unfold is_mapped.
  by destruct (_map_section (extraction_class e)).
Qed.

Lemma predict_success_witness :
  exists response,
    predict echo_engine (fun t => t) "Lungs are clear." 2000 (mkStructurer false [])
    = (Returned response, mkStructurer true [("Lungs are clear.", 2000%Z)])
    /\ length (segments response) = 2%nat.
Proof.
  destruct (predict_success echo_engine (fun t => t) "Lungs are clear." 2000
              (mkStructurer false []) repeated_sentence)
    as (response & Hrun & _ & Hlen & _); [reflexivity | reflexivity |].
  exists response. split; [exact Hrun | exact Hlen].
Defined.
